(** * Arbitrum SDK: the network registry and the L2-to-L1 message tracker

    A shallow embedding of [src/lib/dataEntities/networks.ts] and
    [src/lib/message/L2ToL1Message.ts], with the properties of the
    message-status state machine, the outbox proof, the log search, the
    registry and the fee-increase policy stated over it. *)

From stdpp Require Import base strings gmap list pretty.
From Stdlib Require Import ZArith Lia.

Local Open Scope string_scope.
Local Open Scope Z_scope.

(** ** JavaScript control flow: exceptions, promises, mutable state *)

(** The error objects the two modules construct.  [PlainError] is
    [new Error(..)]; the others are the SDK's own classes.  [NumericFault]
    is the error ethers raises from [BigNumber.toNumber] on overflow. *)
Inductive JsError : Type :=
| PlainError (message : string)
| ArbTsError (message : string)
| ArbSdkError (message : string)
| MissingProviderArbSdkError (target : string)
| TypeError (message : string)
| NumericFault (message : string)
| RpcError (message : string).

Definition message (e : JsError) : string :=
  match e with
  | PlainError m | ArbTsError m | ArbSdkError m | TypeError m
  | NumericFault m | RpcError m => m
  | MissingProviderArbSdkError t => t ++ " does not have a connected provider and one is required."
  end.

(** How the evaluation of a statement or call ends. *)
Inductive Completion (A : Type) : Type :=
| Normal (a : A)
| Throw (e : JsError).
Arguments Normal {A} a.
Arguments Throw {A} e.

(** A promise, observed once settled. *)
Inductive Promise (A : Type) : Type :=
| Fulfilled (a : A)
| Rejected (e : JsError).
Arguments Fulfilled {A} a.
Arguments Rejected {A} e.

(** [await p]: a rejection is rethrown at the await. *)
Definition await {A} (p : Promise A) : Completion A :=
  match p with
  | Fulfilled a => Normal a
  | Rejected e => Throw e
  end.

(** The promise an [async] function returns: whatever its body does, the
    call itself completes normally and the outcome is inside the promise. *)
Definition async {A} (body : Completion A) : Promise A :=
  match body with
  | Normal a => Fulfilled a
  | Throw e => Rejected e
  end.

(** Code running against a mutable state [S] that may throw.  Mutations made
    before a throw stay. *)
Definition Eff (S A : Type) : Type := S → Completion A * S.

Definition ret {S A} (a : A) : Eff S A := λ s, (Normal a, s).
Definition throw {S A} (e : JsError) : Eff S A := λ s, (Throw e, s).
Definition bind {S A B} (m : Eff S A) (k : A → Eff S B) : Eff S B :=
  λ s, match m s with
       | (Normal a, s') => k a s'
       | (Throw e, s') => (Throw e, s')
       end.
Definition get {S} : Eff S S := λ s, (Normal s, s).
Definition put {S} (s : S) : Eff S unit := λ _, (Normal tt, s).
Definition lift {S A} (c : Completion A) : Eff S A := λ s, (c, s).

Declare Scope eff_scope.
Delimit Scope eff_scope with eff.
Notation "'let!' x ':=' m 'in' k" := (bind m (λ x, k))
  (at level 10, x pattern, m at level 100, k at level 200) : eff_scope.
Notation "m ';;;' k" := (bind m (λ _, k))
  (at level 100, k at level 200, right associativity) : eff_scope.
Local Open Scope eff_scope.

(** ** networks.ts: the data *)

Record EthBridge : Type := {
  bridge : string;
  inbox : string;
  sequencerInbox : string;
  outbox : string;
  rollup : string;
}.

(** [L1Network] and [L2Network], with the fields the registry functions and
    the message tracker read.  The token-bridge addresses, explorer URLs and
    timeouts are carried by the source's tables but never inspected by the
    code below. *)
Record L1Network : Type := {
  l1_chainID : Z;
  l1_name : string;
  l1_isCustom : bool;
  l1_partnerChainIDs : list Z;
  l1_blockTime : Z;
}.

Record L2Network : Type := {
  chainID : Z;
  name : string;
  isCustom : bool;
  partnerChainID : Z;
  partnerChainIDs : option (list Z);
  ethBridge : EthBridge;
  confirmPeriodBlocks : Z;
}.

(** The objects the tables point to.  [ObjBare] is an object literal that has
    at most a [partnerChainIDs] property: [{...undefined}] is [ObjBare None]
    and [{...undefined, partnerChainIDs: []}] is [ObjBare (Some [])]. *)
Inductive NetObj : Type :=
| ObjL1 (n : L1Network)
| ObjL2 (n : L2Network)
| ObjBare (ids : option (list Z)).

(** [ParentChain = L1Network | L2Network]. *)
Inductive ParentChain : Type :=
| ParentL1 (n : L1Network)
| ParentL2 (n : L2Network).

Definition parent_obj (p : ParentChain) : NetObj :=
  match p with ParentL1 n => ObjL1 n | ParentL2 n => ObjL2 n end.
Definition parent_chainID (p : ParentChain) : Z :=
  match p with ParentL1 n => l1_chainID n | ParentL2 n => chainID n end.
Definition parent_isCustom (p : ParentChain) : bool :=
  match p with ParentL1 n => l1_isCustom n | ParentL2 n => isCustom n end.

(** [o.partnerChainIDs] *)
Definition obj_partnerChainIDs (o : NetObj) : option (list Z) :=
  match o with
  | ObjL1 n => Some (l1_partnerChainIDs n)
  | ObjL2 n => partnerChainIDs n
  | ObjBare ids => ids
  end.

(** [o.partnerChainIDs = ids] *)
Definition obj_set_partnerChainIDs (ids : list Z) (o : NetObj) : NetObj :=
  match o with
  | ObjL1 n => ObjL1 {| l1_chainID := l1_chainID n; l1_name := l1_name n;
                        l1_isCustom := l1_isCustom n; l1_partnerChainIDs := ids;
                        l1_blockTime := l1_blockTime n |}
  | ObjL2 n => ObjL2 {| chainID := chainID n; name := name n;
                        isCustom := isCustom n; partnerChainID := partnerChainID n;
                        partnerChainIDs := Some ids; ethBridge := ethBridge n;
                        confirmPeriodBlocks := confirmPeriodBlocks n |}
  | ObjBare _ => ObjBare (Some ids)
  end.

(** The module state.  The four tables are JavaScript objects keyed by chain
    id whose values are references: [parentChains] and [chains] are built by
    spreading [l1Networks] and [l2Networks], so an entry of [parentChains]
    and the entry of [l1Networks] under the same id are one object, and a
    [push] through either is seen through both.  [heap] holds the objects. *)
Record Registry : Type := {
  heap : gmap positive NetObj;
  l1Networks : gmap Z positive;
  l2Networks : gmap Z positive;
  parentChains : gmap Z positive;
  chains : gmap Z positive;
}.

Definition set_heap (h : gmap positive NetObj) (r : Registry) : Registry :=
  {| heap := h; l1Networks := l1Networks r; l2Networks := l2Networks r;
     parentChains := parentChains r; chains := chains r |}.
Definition set_l1Networks (t : gmap Z positive) (r : Registry) : Registry :=
  {| heap := heap r; l1Networks := t; l2Networks := l2Networks r;
     parentChains := parentChains r; chains := chains r |}.
Definition set_l2Networks (t : gmap Z positive) (r : Registry) : Registry :=
  {| heap := heap r; l1Networks := l1Networks r; l2Networks := t;
     parentChains := parentChains r; chains := chains r |}.
Definition set_parentChains (t : gmap Z positive) (r : Registry) : Registry :=
  {| heap := heap r; l1Networks := l1Networks r; l2Networks := l2Networks r;
     parentChains := t; chains := chains r |}.
Definition set_chains (t : gmap Z positive) (r : Registry) : Registry :=
  {| heap := heap r; l1Networks := l1Networks r; l2Networks := l2Networks r;
     parentChains := parentChains r; chains := t |}.

(** A new object enters the heap at an unused address. *)
Definition alloc (o : NetObj) : Eff Registry positive :=
  λ r, let l := fresh (dom (heap r)) in (Normal l, set_heap (<[l := o]> (heap r)) r).

(** [Number.prototype.toString] on an integer chain id, as a template literal
    prints it. *)
Definition show (n : Z) : string := pretty n.

(** ** The chain capabilities *)

(** The [args] of a parsed [NodeConfirmed(nodeNum, blockHash, sendRoot)]
    log of the rollup contract. *)
Record NodeConfirmedLog : Type := {
  nodeNum : Z;
  log_blockHash : string;
  log_sendRoot : string;
}.

(** The two fields read from the JSON block [eth_getBlockByHash] returns. *)
Record L2Block : Type := {
  blk_sendRoot : string;
  blk_sendCount : Z;
}.

(** [L2ToL1Event]; every [BigNumber] is an integer. *)
Record L2ToL1Event : Type := {
  caller : string;
  destination : string;
  hash : Z;
  position : Z;
  indexInBatch : Z;
  arbBlockNum : Z;
  ethBlockNum : Z;
  timestamp : Z;
  callvalue : Z;
  data : string;
}.

(** The filter of [l1Provider.getLogs] in [updateSendRoot]; [toBlock] is
    always ['latest'] and the topics encode the node number. *)
Record LogFilter : Type := {
  address : string;
  fromBlock : Z;
  topic_nodeNum : Z;
}.

(** The filter of the [L2ToL1Transaction] event search. *)
Inductive BlockTag : Type :=
| BlockNumber (n : Z)
| BlockName (tag : string).

Record EventFilter : Type := {
  ev_fromBlock : BlockTag;
  ev_toBlock : BlockTag;
  ev_destination : option string;
  ev_uniqueId : option Z;
  ev_batchNumber : option Z;
}.

(** What a provider answers to each request the two modules make.  Every
    request returns a promise, which the chain client may reject. *)
Record Provider : Type := {
  provider_getNetwork : Promise Z;
  getBlockNumber : Promise Z;
  getLogs : LogFilter → Promise (list NodeConfirmedLog);
  latestConfirmed : string → Promise Z;
  spent : string → Z → Promise bool;
  eth_getBlockByHash : string → Promise (option L2Block);
  constructOutboxProof : Z → Z → Promise (list string);
  getEvents : EventFilter → Promise (list L2ToL1Event);
}.

(** [SignerOrProvider], seen through the one helper the registry applies to
    it: [SignerProviderUtils.getProviderOrThrow] returns the provider or
    throws (the helper lives in [signerOrProvider.ts]; its outcome on the
    value is part of the value here). *)
Record SignerOrProvider : Type := {
  getProviderOrThrow : Completion Provider;
}.

(** A [Provider] is its own provider. *)
Definition ofProvider (p : Provider) : SignerOrProvider :=
  {| getProviderOrThrow := Normal p |}.

Inductive SignerOrProviderOrChainID : Type :=
| ChainID (n : Z)
| SignerOrProvider_ (sp : SignerOrProvider).

(** ** networks.ts: the tables at module load *)

Definition mainnetETHBridge : EthBridge :=
  {| bridge := "0x8315177aB297bA92A06054cE80a67Ed4DBd7ed3a";
     inbox := "0x4Dbd4fc535Ac27206064B68FfCf827b0A60BAB3f";
     sequencerInbox := "0x1c479675ad559DC151F6Ec7ed3FbF8ceE79582B6";
     outbox := "0x0B9857ae2D4A3DBe74ffE1d7DF045bb7F96E4840";
     rollup := "0x5eF0D09d1E6204141B4d37530808eD19f60FBa35" |}.

Definition net_mainnet : L1Network :=
  {| l1_chainID := 1; l1_name := "Mainnet"; l1_isCustom := false;
     l1_partnerChainIDs := [42161; 42170]; l1_blockTime := 14 |}.
Definition net_hardhat : L1Network :=
  {| l1_chainID := 1338; l1_name := "Hardhat_Mainnet_Fork"; l1_isCustom := false;
     l1_partnerChainIDs := [42161]; l1_blockTime := 1 |}.
Definition net_goerli : L1Network :=
  {| l1_chainID := 5; l1_name := "Goerli"; l1_isCustom := false;
     l1_partnerChainIDs := [421613]; l1_blockTime := 15 |}.
Definition net_sepolia : L1Network :=
  {| l1_chainID := 11155111; l1_name := "Sepolia"; l1_isCustom := false;
     l1_partnerChainIDs := [421614]; l1_blockTime := 12 |}.

Definition net_arbOne : L2Network :=
  {| chainID := 42161; name := "Arbitrum One"; isCustom := false;
     partnerChainID := 1; partnerChainIDs := None;
     ethBridge := mainnetETHBridge; confirmPeriodBlocks := 45818 |}.
Definition net_arbGoerli : L2Network :=
  {| chainID := 421613; name := "Arbitrum Rollup Goerli Testnet"; isCustom := false;
     partnerChainID := 5; partnerChainIDs := None;
     ethBridge :=
       {| bridge := "0xaf4159a80b6cc41ed517db1c453d1ef5c2e4db72";
          inbox := "0x6BEbC4925716945D46F0Ec336D5C2564F419682C";
          sequencerInbox := "0x0484A87B144745A2E5b7c359552119B6EA2917A9";
          outbox := "0x45Af9Ed1D03703e480CE7d328fB684bb67DA5049";
          rollup := "0x45e5cAea8768F42B385A366D3551Ad1e0cbFAb17" |};
     confirmPeriodBlocks := 20 |}.
Definition net_nova : L2Network :=
  {| chainID := 42170; name := "Arbitrum Nova"; isCustom := false;
     partnerChainID := 1; partnerChainIDs := None;
     ethBridge :=
       {| bridge := "0xc1ebd02f738644983b6c4b2d440b8e77dde276bd";
          inbox := "0xc4448b71118c9071bcb9734a0eac55d18a153949";
          sequencerInbox := "0x211e1c4c7f1bf5351ac850ed10fd68cffcf6c21b";
          outbox := "0xD4B80C3D7240325D18E645B49e6535A3Bf95cc58";
          rollup := "0xfb209827c58283535b744575e11953dcc4bead88" |};
     confirmPeriodBlocks := 45818 |}.
Definition net_arbSepolia : L2Network :=
  {| chainID := 421614; name := "Arbitrum Rollup Sepolia Testnet"; isCustom := false;
     partnerChainID := 11155111; partnerChainIDs := None;
     ethBridge :=
       {| bridge := "0x38f918D0E9F1b721EDaA41302E399fa1B79333a9";
          inbox := "0xaAe29B0366299461418F5324a79Afc425BE5ae21";
          sequencerInbox := "0x6c97864CE4bEf387dE0b3310A44230f7E3F1be0D";
          outbox := "0x65f07C7D521164a4d5DaC6eB8Fac8DA067A3B78F";
          rollup := "0xd80810638dbDF9081b72C1B33c65375e807281C8" |};
     confirmPeriodBlocks := 20 |}.

Definition initial_heap : gmap positive NetObj :=
  list_to_map
    [ (1%positive, ObjL1 net_mainnet); (2%positive, ObjL1 net_hardhat);
      (3%positive, ObjL1 net_goerli); (4%positive, ObjL1 net_sepolia);
      (5%positive, ObjL2 net_arbOne); (6%positive, ObjL2 net_arbGoerli);
      (7%positive, ObjL2 net_nova); (8%positive, ObjL2 net_arbSepolia) ].

Definition initial_l1Networks : gmap Z positive :=
  list_to_map [ (1, 1%positive); (1338, 2%positive); (5, 3%positive);
                (11155111, 4%positive) ].

Definition initial_l2Networks : gmap Z positive :=
  list_to_map [ (42161, 5%positive); (421613, 6%positive); (42170, 7%positive);
                (421614, 8%positive) ].

(** [network.partnerChainIDs && network.partnerChainIDs.length > 0] *)
Definition has_partners (o : option NetObj) : bool :=
  match o ≫= obj_partnerChainIDs with
  | Some (_ :: _) => true
  | _ => false
  end.

(** [getL2ParentChains]: the entries of [l2Networks] whose object has a
    non-empty [partnerChainIDs].  The source walks the keys of its argument
    and reads the objects from the global [l2Networks]; its one call passes
    that same table. *)
Definition getL2ParentChains (h : gmap positive NetObj) (_l2Networks : gmap Z positive)
  : gmap Z positive :=
  filter (λ kv, has_partners (h !! kv.2) = true) _l2Networks.

(** [parentChains = {...l1Networks, ...getL2ParentChains(l2Networks)}] and
    [chains = {...l2Networks}]: a later spread wins, and the values are the
    same references. *)
Definition initial_registry : Registry :=
  {| heap := initial_heap;
     l1Networks := initial_l1Networks;
     l2Networks := initial_l2Networks;
     parentChains := getL2ParentChains initial_heap initial_l2Networks ∪ initial_l1Networks;
     chains := initial_l2Networks |}.

(** ** networks.ts: lookups *)

(** [table[id]] followed by a read of the object: [None] is [undefined]. *)
Definition entry (r : Registry) (table : gmap Z positive) (id : Z) : option NetObj :=
  table !! id ≫= λ l, heap r !! l.

Inductive Layer : Type := Layer1 | Layer2.

(** The inner async arrow of [getNetwork] and [getParentChainOrChain] that
    turns the argument into a chain id. *)
Definition resolveChainID (x : SignerOrProviderOrChainID) : Completion Z :=
  match x with
  | ChainID n => Normal n
  | SignerOrProvider_ sp =>
      match getProviderOrThrow sp with
      | Throw e => Throw e
      | Normal provider => await (provider_getNetwork provider)
      end
  end.

(** [a || b] on two table reads. *)
Definition js_or {A} (a b : option A) : option A :=
  match a with Some _ => a | None => b end.

(** The body of [getNetwork]. *)
Definition getNetwork_body (r : Registry) (x : SignerOrProviderOrChainID) (layer : Layer)
  : Completion NetObj :=
  match await (async (resolveChainID x)) with
  | Throw e => Throw e
  | Normal chainID =>
      let network :=
        match layer with
        | Layer1 => entry r (l1Networks r) chainID
        | Layer2 => js_or (entry r (l2Networks r) chainID) (entry r (chains r) chainID)
        end in
      match network with
      | Some n => Normal n
      | None => Throw (ArbSdkError ("Unrecognized network " ++ show chainID ++ "."))
      end
  end.

(** [getNetwork] is declared [async]: the call expression always completes
    normally, with a promise that carries the body's outcome. *)
Definition getNetwork (r : Registry) (x : SignerOrProviderOrChainID) (layer : Layer)
  : Completion (Promise NetObj) :=
  Normal (async (getNetwork_body r x layer)).

Definition getL1Network (r : Registry) (x : SignerOrProviderOrChainID)
  : Completion (Promise NetObj) :=
  getNetwork r x Layer1.

Inductive ChainType : Type := TParentChain | TChain.

Definition show_type (t : ChainType) : string :=
  match t with TParentChain => "ParentChain" | TChain => "Chain" end.

Definition getParentChainOrChain_body (r : Registry) (x : SignerOrProviderOrChainID)
    (type : ChainType) : Completion NetObj :=
  match await (async (resolveChainID x)) with
  | Throw e => Throw e
  | Normal chainID =>
      let _chains := match type with TParentChain => parentChains r | TChain => chains r end in
      match entry r _chains chainID with
      | None =>
          Throw (ArbSdkError ("Unrecognized " ++ show_type type ++ " " ++ show chainID ++ "."))
      | Some chain => Normal chain
      end
  end.

Definition getParentChainOrChain (r : Registry) (x : SignerOrProviderOrChainID)
    (type : ChainType) : Completion (Promise NetObj) :=
  Normal (async (getParentChainOrChain_body r x type)).

(** [getParentChain] and [getChain] are [async] and return the inner call. *)
Definition getParentChain (r : Registry) (x : SignerOrProviderOrChainID)
  : Completion (Promise NetObj) :=
  Normal (async (match getParentChainOrChain r x TParentChain with
                 | Normal p => await p
                 | Throw e => Throw e
                 end)).

Definition getChain (r : Registry) (x : SignerOrProviderOrChainID)
  : Completion (Promise NetObj) :=
  Normal (async (match getParentChainOrChain r x TChain with
                 | Normal p => await p
                 | Throw e => Throw e
                 end)).

(** [getL2Network] is not [async]: it evaluates the call [getNetwork(.., 2)]
    inside [try], and runs the [catch] block only if that call expression
    throws. *)
Definition getL2Network (r : Registry) (x : SignerOrProviderOrChainID)
  : Completion (Promise NetObj) :=
  match getNetwork r x Layer2 with
  | Normal l2Network => Normal l2Network
  | Throw _ => getChain r x
  end.

(** ** networks.ts: registration *)

Definition modify {S} (f : S → S) : Eff S unit := λ s, (Normal tt, f s).

(** [{...o}]: a shallow copy; spreading [undefined] gives [{}]. *)
Definition spread (o : option NetObj) : NetObj :=
  match o with Some o => o | None => ObjBare None end.

(** [if (!t[id].partnerChainIDs.includes(x)) t[id].partnerChainIDs.push(x)]
    on the object the table entry refers to. *)
Definition push_partner (table : Registry → gmap Z positive) (id x : Z) : Eff Registry unit :=
  let! r := get in
  match table r !! id with
  | None => throw (TypeError "Cannot read properties of undefined (reading 'partnerChainIDs')")
  | Some l =>
      match heap r !! l ≫= obj_partnerChainIDs with
      | None => throw (TypeError "Cannot read properties of undefined (reading 'includes')")
      | Some ids =>
          if bool_decide (x ∈ ids) then ret tt
          else modify (λ r, set_heap (alter (obj_set_partnerChainIDs (ids ++ [x])) l (heap r)) r)
      end
  end.

Definition addCustomChain (customParentChain : option ParentChain) (customChain : L2Network)
  : Eff Registry unit :=
  (match customParentChain with
   | Some p =>
       let! r := get in
       if bool_decide (is_Some (parentChains r !! parent_chainID p)) then
         throw (ArbSdkError ("Parent chain " ++ show (parent_chainID p) ++ " already included."))
       else if negb (parent_isCustom p) then
         throw (ArbSdkError ("Custom parent chain " ++ show (parent_chainID p)
                             ++ " must have isCustom flag set to true."))
       else ret tt
   | None => ret tt
   end) ;;;
  let! r := get in
  if bool_decide (is_Some (chains r !! chainID customChain)) then
    throw (ArbSdkError ("Chain " ++ show (chainID customChain) ++ " already included."))
  else if negb (isCustom customChain) then
    throw (ArbSdkError ("Custom chain " ++ show (chainID customChain)
                        ++ " must have isCustom flag set to true."))
  else
  (* let parentPartnerChain = { ...parentChains[customChain.partnerChainID] } *)
  let parentPartnerChain : option NetObj :=
    Some (spread (entry r (parentChains r) (partnerChainID customChain))) in
  let parentPartnerChain : option NetObj :=
    if negb (bool_decide (is_Some parentPartnerChain))
       && match customParentChain with
          | Some p => bool_decide (parent_chainID p = partnerChainID customChain)
          | None => false
          end
    then parent_obj <$> customParentChain
    else parentPartnerChain in
  if negb (bool_decide (is_Some parentPartnerChain)) then
    throw (ArbSdkError ("Chain " ++ show (chainID customChain)
                        ++ "'s partner parent chain, undefined, not recognized."))
  else
  (match customParentChain with
   | Some p =>
       let! l := alloc (parent_obj p) in
       modify (λ r, set_parentChains (<[parent_chainID p := l]> (parentChains r)) r)
   | None => ret tt
   end) ;;;
  (let! l := alloc (ObjL2 customChain) in
   modify (λ r, set_chains (<[chainID customChain := l]> (chains r)) r)) ;;;
  (* if parent chain doesn't exist, we need to add it from L2 Networks *)
  (let! r := get in
   if negb (bool_decide (is_Some (parentChains r !! partnerChainID customChain))) then
     let! l := alloc (obj_set_partnerChainIDs []
                        (spread (entry r (l2Networks r) (partnerChainID customChain)))) in
     modify (λ r, set_parentChains (<[partnerChainID customChain := l]> (parentChains r)) r)
   else ret tt) ;;;
  (* add partner chain ID to the parent network if it doesn't exist *)
  push_partner parentChains (partnerChainID customChain) (chainID customChain).

Definition addCustomNetwork (customL1Network : option L1Network) (customL2Network : L2Network)
  : Eff Registry unit :=
  (match customL1Network with
   | Some n1 =>
       let! r := get in
       if bool_decide (is_Some (l1Networks r !! l1_chainID n1)) then
         throw (ArbSdkError ("Network " ++ show (l1_chainID n1) ++ " already included"))
       else if negb (l1_isCustom n1) then
         throw (ArbSdkError ("Custom network " ++ show (l1_chainID n1)
                             ++ " must have isCustom flag set to true"))
       else
         let! l := alloc (ObjL1 n1) in
         modify (λ r, set_l1Networks (<[l1_chainID n1 := l]> (l1Networks r)) r)
   | None => ret tt
   end) ;;;
  (let! r := get in
   if bool_decide (is_Some (l2Networks r !! chainID customL2Network)) then
     throw (ArbSdkError ("Network " ++ show (chainID customL2Network) ++ " already included"))
   else if negb (isCustom customL2Network) then
     throw (ArbSdkError ("Custom network " ++ show (chainID customL2Network)
                         ++ " must have isCustom flag set to true"))
   else ret tt) ;;;
  (let! l := alloc (ObjL2 customL2Network) in
   modify (λ r, set_l2Networks (<[chainID customL2Network := l]> (l2Networks r)) r)) ;;;
  let! r := get in
  match l1Networks r !! partnerChainID customL2Network with
  | None =>
      throw (ArbSdkError ("Network " ++ show (chainID customL2Network)
                          ++ "'s partner network, " ++ show (partnerChainID customL2Network)
                          ++ ", not recognized"))
  | Some _ =>
      push_partner l1Networks (partnerChainID customL2Network) (chainID customL2Network)
  end.

(** ** L2ToL1Message.ts *)

Inductive L2ToL1MessageStatus : Type :=
| NOT_FOUND
| UNCONFIRMED
| CONFIRMED
| EXECUTED.

Global Instance L2ToL1MessageStatus_eq_dec : EqDecision L2ToL1MessageStatus.
Proof. solve_decision. Defined.

(** The number behind each member of the TypeScript enum, which is what a
    template literal prints. *)
Definition status_value (s : L2ToL1MessageStatus) : Z :=
  match s with
  | NOT_FOUND => 0
  | UNCONFIRMED => 1
  | CONFIRMED => 2
  | EXECUTED => 3
  end.

(** The mutable part of an [L2ToL1MessageReader] next to its read-only
    fields: the two private cache fields start out [undefined]. *)
Record L2ToL1MessageReader : Type := {
  outboxAddress : string;
  event : L2ToL1Event;
  sendRootHash : option string;
  sendRootSize : option Z;
}.

(** [new L2ToL1MessageReader(l1Provider, outboxAddress, event)] *)
Definition new_reader (outboxAddress : string) (event : L2ToL1Event) : L2ToL1MessageReader :=
  {| outboxAddress := outboxAddress; event := event;
     sendRootHash := None; sendRootSize := None |}.

(** The arguments of [outbox.executeTransaction]. *)
Record ExecuteCall : Type := {
  call_proof : list string;
  call_index : Z;
  call_l2Sender : string;
  call_to : string;
  call_l2Block : Z;
  call_l1Block : Z;
  call_l2Timestamp : Z;
  call_value : Z;
  call_data : string;
}.

Record ContractTransaction : Type := { tx_hash : string }.

(** What the surroundings of a message answer at the time of one call: the
    registry of [networks.ts], the parent-chain provider the reader was built
    with, the provider passed as [l2Provider], and the outbox contract bound
    to the writer's signer. *)
Record World : Type := {
  registry : Registry;
  l1Provider : Provider;
  l2Provider : Provider;
  executeTransaction : string → ExecuteCall → Promise ContractTransaction;
}.

(** Truthiness of an optional string field: [undefined] and [''] are falsy. *)
Definition truthy (s : option string) : bool :=
  match s with
  | None => false
  | Some s => negb (String.eqb s "")
  end.

(** [BigNumber.toNumber]: throws unless the value fits in 53 bits. *)
Definition toNumber (x : Z) : Completion Z :=
  if Z.abs x <? 2 ^ 53 then Normal x else Throw (NumericFault "overflow").

(** [await f(..)] for a call that itself may throw before returning. *)
Definition await_call {A} (c : Completion (Promise A)) : Completion A :=
  match c with
  | Normal p => await p
  | Throw e => Throw e
  end.

(** [l2Network.ethBridge.rollup] *)
Definition ethBridge_rollup (o : NetObj) : Completion string :=
  match o with
  | ObjL2 n => Normal (rollup (ethBridge n))
  | _ => Throw (TypeError "Cannot read properties of undefined (reading 'rollup')")
  end.

Definition updateSendRoot (w : World) : Eff L2ToL1MessageReader unit :=
  let! this := get in
  if truthy (sendRootHash this) then ret tt else
  let! l2Network :=
    lift (await_call (getL2Network (registry w) (SignerOrProvider_ (ofProvider (l2Provider w))))) in
  let! rollup_address := lift (ethBridge_rollup l2Network) in
  let! latestConfirmedNode := lift (await (latestConfirmed (l1Provider w) rollup_address)) in
  let! currentBlock := lift (await (getBlockNumber (l1Provider w))) in
  (* now get the block hash and sendroot for that node *)
  let! logs :=
    lift (await (getLogs (l1Provider w)
                   {| address := rollup_address;
                      fromBlock := Z.max (currentBlock - (4 * 7 * 24 * 60 * 60) / 14) 0;
                      topic_nodeNum := latestConfirmedNode |})) in
  match logs with
  | [parsedLog] =>
      let! l2Block := lift (await (eth_getBlockByHash (l2Provider w) (log_blockHash parsedLog))) in
      match l2Block with
      | None => throw (TypeError "Cannot read properties of null (reading 'sendRoot')")
      | Some l2Block =>
          if negb (String.eqb (blk_sendRoot l2Block) (log_sendRoot parsedLog)) then
            throw (PlainError "send roots")
          else
            let sendRootSize' := blk_sendCount l2Block in
            if position (event this) <? sendRootSize' then
              put {| outboxAddress := outboxAddress this; event := event this;
                     sendRootHash := Some (log_sendRoot parsedLog);
                     sendRootSize := Some sendRootSize' |}
            else ret tt
      end
  | _ => throw (PlainError "missing logs")
  end.

Definition status (w : World) : Eff L2ToL1MessageReader L2ToL1MessageStatus :=
  updateSendRoot w ;;;
  let! this := get in
  if negb (truthy (sendRootHash this)) then ret UNCONFIRMED else
  let! spent := lift (await (spent (l1Provider w) (outboxAddress this) (position (event this)))) in
  ret (if spent : bool then EXECUTED else CONFIRMED).

Definition getOutboxProof (w : World) : Eff L2ToL1MessageReader (list string) :=
  updateSendRoot w ;;;
  let! this := get in
  match sendRootSize this with
  | None => throw (ArbTsError "Node not confirmed, cannot get proof.")
  | Some size =>
      let! size_number := lift (toNumber size) in
      let! leaf_number := lift (toNumber (position (event this))) in
      lift (await (constructOutboxProof (l2Provider w) size_number leaf_number))
  end.

(** The error [execute] builds when the status is not CONFIRMED; the template
    literal prints the two enum members as numbers. *)
Definition cannot_execute (st : L2ToL1MessageStatus) : JsError :=
  ArbTsError ("Cannot execute message. Status is: " ++ show (status_value st)
              ++ " but must be " ++ show (status_value CONFIRMED) ++ ".").

Definition execute (w : World) : Eff L2ToL1MessageReader ContractTransaction :=
  let! st := status w in
  if negb (bool_decide (st = CONFIRMED)) then throw (cannot_execute st)
  else
  let! proof := getOutboxProof w in
  let! this := get in
  lift (await (executeTransaction w (outboxAddress this)
                 {| call_proof := proof;
                    call_index := position (event this);
                    call_l2Sender := caller (event this);
                    call_to := destination (event this);
                    call_l2Block := arbBlockNum (event this);
                    call_l1Block := ethBlockNum (event this);
                    call_l2Timestamp := timestamp (event this);
                    call_value := callvalue (event this);
                    call_data := data (event this) |})).

(** The static [getL2ToL1MessageLogs].  [indexInBatch] is a [BigNumber]
    object when supplied, so the test [if (indexInBatch)] only asks whether it
    was supplied. *)
Definition getL2ToL1MessageLogs (l2Provider : Provider) (fromBlock toBlock : BlockTag)
    (batchNumber : option Z) (destination : option string) (uniqueId : option Z)
    (indexInBatch' : option Z) : Promise (list L2ToL1Event) :=
  async
    (match await (getEvents l2Provider
                    {| ev_fromBlock := fromBlock; ev_toBlock := toBlock;
                       ev_destination := destination; ev_uniqueId := uniqueId;
                       ev_batchNumber := batchNumber |}) with
     | Throw e => Throw e
     | Normal events =>
         match indexInBatch' with
         | Some i =>
             let indexItems := filter (λ b, indexInBatch b = i) events in
             if bool_decide (length indexItems = 1%nat) then Normal indexItems
             else if bool_decide (1 < length indexItems)%nat then
               Throw (ArbTsError "More than one indexed item found in batch.")
             else Normal []
         | None => Normal events
         end
     end).

(** States after a sequence of [status()] calls on one message instance,
    each call seeing the surroundings of its own time: the outcome of every
    call together with the instance as that call left it. *)
Fixpoint poll (ws : list World) (m : L2ToL1MessageReader)
  : list (Completion L2ToL1MessageStatus * L2ToL1MessageReader) :=
  match ws with
  | [] => []
  | w :: ws' => let r := status w m in r :: poll ws' (snd r)
  end.


(** ABI decoding renders the [bytes32 sendRoot] of a [NodeConfirmed] log as
    ["0x"] followed by 64 hex digits, so the parsed root is never the empty
    string. *)
Definition roots_nonempty (w : World) : Prop :=
  ∀ f logs log, getLogs (l1Provider w) f = Fulfilled logs → log ∈ logs → log_sendRoot log ≠ "".

(** The resolution steps of [updateSendRoot] all answer: the registry knows
    the chain of [l2Provider] as a layer-2 network [n], the rollup reports
    [node] as latest confirmed, and the log search over the window ending at
    the current block [cur] returns [logs]. *)
Definition confirmed_logs (w : World) (logs : list NodeConfirmedLog) : Prop :=
  ∃ cid n node cur,
    provider_getNetwork (l2Provider w) = Fulfilled cid
    ∧ js_or (entry (registry w) (l2Networks (registry w)) cid)
            (entry (registry w) (chains (registry w)) cid) = Some (ObjL2 n)
    ∧ latestConfirmed (l1Provider w) (rollup (ethBridge n)) = Fulfilled node
    ∧ getBlockNumber (l1Provider w) = Fulfilled cur
    ∧ getLogs (l1Provider w)
        {| address := rollup (ethBridge n); fromBlock := Z.max (cur - 172800) 0;
           topic_nodeNum := node |} = Fulfilled logs.

(** [true] when [needle] occurs in [hay]. *)
Fixpoint contains (needle hay : string) : bool :=
  String.prefix needle hay
  || match hay with
     | EmptyString => false
     | String _ hay' => contains needle hay'
     end.

(** ** The fee-increase policy *)

(** Modelled from the spec: the gas estimator ([L1ToL2MessageGasEstimator]) is
    not among the sources.  Section 4.3 gives the policy: a value is
    [base + base*percent/100] over arbitrary-precision integers, truncating
    toward zero, and then floored at the [min] override when one is
    supplied. *)
Definition percentIncrease (base percent : Z) : Z :=
  base + (base * percent) ÷ 100.

(** Modelled from the spec: the estimator's result for an override
    [{base, percentIncrease, min}]. *)
Definition applyOverride (base percent : Z) (min : option Z) : Z :=
  match min with
  | Some m => Z.max (percentIncrease base percent) m
  | None => percentIncrease base percent
  end.

(** ** Sample surroundings *)

Module Sample.

Definition event5 : L2ToL1Event :=
  {| caller := "0xaa"; destination := "0xbb"; hash := 77; position := 5;
     indexInBatch := 0; arbBlockNum := 100; ethBlockNum := 50;
     timestamp := 1700000000; callvalue := 1; data := "0x" |}.

Definition log7 : NodeConfirmedLog :=
  {| nodeNum := 7; log_blockHash := "0xb10c"; log_sendRoot := "0x5e4d" |}.

(** A chain client on chain [chain]: node 7 is the latest confirmed, its
    log is found when [logs] says so, and every block lookup gives [blk]. *)
Definition provider (chain : Z) (logs : list NodeConfirmedLog) (blk : option L2Block)
    (is_spent : bool) : Provider :=
  {| provider_getNetwork := Fulfilled chain;
     getBlockNumber := Fulfilled 1000000;
     getLogs := λ f, Fulfilled (if bool_decide (topic_nodeNum f = 7) then logs else []);
     latestConfirmed := λ _, Fulfilled 7;
     spent := λ _ _, Fulfilled is_spent;
     eth_getBlockByHash := λ _, Fulfilled blk;
     constructOutboxProof := λ _ _, Fulfilled ["0x01"; "0x02"];
     getEvents := λ _, Fulfilled [] |}.

Definition world (logs : list NodeConfirmedLog) (blk : option L2Block) (is_spent : bool)
  : World :=
  {| registry := initial_registry;
     l1Provider := provider 1 logs blk is_spent;
     l2Provider := provider 42161 logs blk is_spent;
     executeTransaction := λ _ _, Fulfilled {| tx_hash := "0xdead" |} |}.

Definition block (root : string) (count : Z) : L2Block :=
  {| blk_sendRoot := root; blk_sendCount := count |}.

(** A layer-2 descriptor whose partner chain 12345 is in no table. *)
Definition orphan : L2Network :=
  {| chainID := 999; name := "Orphan"; isCustom := true; partnerChainID := 12345;
     partnerChainIDs := None; ethBridge := mainnetETHBridge; confirmPeriodBlocks := 20 |}.

Definition event_at (i : Z) : L2ToL1Event :=
  {| caller := "0xaa"; destination := "0xbb"; hash := i; position := i;
     indexInBatch := i; arbBlockNum := 100; ethBlockNum := 50;
     timestamp := 1700000000; callvalue := 0; data := "0x" |}.

Definition events_provider (events : list L2ToL1Event) : Provider :=
  {| provider_getNetwork := Fulfilled 42161;
     getBlockNumber := Fulfilled 1000000;
     getLogs := λ _, Fulfilled [];
     latestConfirmed := λ _, Fulfilled 7;
     spent := λ _ _, Fulfilled false;
     eth_getBlockByHash := λ _, Fulfilled None;
     constructOutboxProof := λ _ _, Fulfilled [];
     getEvents := λ _, Fulfilled events |}.

End Sample.

(** ** networks.ts: the remaining functions *)

(** [isL1Network]: an array is truthy even when empty, so the first test
    only asks whether the property is there. *)
Definition isL1Network (network : NetObj) : bool :=
  match obj_partnerChainIDs network with
  | None => false
  | Some ids => bool_decide (0 < length ids)%nat
  end.

Definition defaultLocalL1Network : L1Network :=
  {| l1_chainID := 1337; l1_name := "EthLocal"; l1_isCustom := true;
     l1_partnerChainIDs := [412346]; l1_blockTime := 10 |}.

Definition defaultLocalL2Network : L2Network :=
  {| chainID := 412346; name := "ArbLocal"; isCustom := true;
     partnerChainID := 1337; partnerChainIDs := None;
     ethBridge :=
       {| bridge := "0x2b360a9881f21c3d7aa0ea6ca0de2a3341d4ef3c";
          inbox := "0xff4a24b22f94979e9ba5f3eb35838aa814bad6f1";
          sequencerInbox := "0xe7362d0787b51d8c72d504803e5b1d6dcda89540";
          outbox := "0x49940929c7cA9b50Ff57a01d3a92817A414E6B9B";
          rollup := "0x65a59d67da8e710ef9a01eca37f83f84aedec416" |};
     confirmPeriodBlocks := 20 |}.

Definition addDefaultLocalNetwork : Eff Registry (L1Network * L2Network) :=
  addCustomNetwork (Some defaultLocalL1Network) defaultLocalL2Network ;;;
  ret (defaultLocalL1Network, defaultLocalL2Network).

(** ** L2ToL1Message.ts: waiting for the outbox entry *)

(** How a wait ended: its outcome, the instance as it left it, and the
    milliseconds spent in [wait(retryDelay)]. *)
Record Waited : Type := {
  outcome : Completion unit;
  instance : L2ToL1MessageReader;
  slept : Z;
}.

(** [waitUntilReadyToExecute(retryDelay = 500, l2Provider)].  The method
    calls itself after every sleep and has no bound of its own; [ws] lists
    what the surroundings answer at each successive poll, and [None] says
    that the wait is still going on when these observations end. *)
Fixpoint waitUntilReadyToExecute (retryDelay : option Z) (ws : list World)
    (m : L2ToL1MessageReader) : option Waited :=
  match ws with
  | [] => None
  | w :: ws' =>
      match status w m with
      | (Throw e, m') => Some {| outcome := Throw e; instance := m'; slept := 0 |}
      | (Normal st, m') =>
          if bool_decide (st = CONFIRMED) || bool_decide (st = EXECUTED) then
            Some {| outcome := Normal tt; instance := m'; slept := 0 |}
          else
            match waitUntilReadyToExecute retryDelay ws' m' with
            | Some r =>
                Some {| outcome := outcome r; instance := instance r;
                        slept := default 500 retryDelay + slept r |}
            | None => None
            end
      end
  end.

(** The surroundings [w] with another answer to [getLogs]. *)
Definition with_getLogs (g : LogFilter → Promise (list NodeConfirmedLog)) (w : World) : World :=
  {| registry := registry w;
     l1Provider :=
       {| provider_getNetwork := provider_getNetwork (l1Provider w);
          getBlockNumber := getBlockNumber (l1Provider w);
          getLogs := g;
          latestConfirmed := latestConfirmed (l1Provider w);
          spent := spent (l1Provider w);
          eth_getBlockByHash := eth_getBlockByHash (l1Provider w);
          constructOutboxProof := constructOutboxProof (l1Provider w);
          getEvents := getEvents (l1Provider w) |};
     l2Provider := l2Provider w;
     executeTransaction := executeTransaction w |}.

(** The surroundings [w] with another registry. *)
Definition with_registry (r : Registry) (w : World) : World :=
  {| registry := r; l1Provider := l1Provider w; l2Provider := l2Provider w;
     executeTransaction := executeTransaction w |}.

(** Every table entry refers to an object in the heap. *)
Definition refs_in_heap (r : Registry) : Prop :=
  ∀ table, table ∈ [l1Networks r; l2Networks r; parentChains r; chains r] →
    ∀ id l, table !! id = Some l → is_Some (heap r !! l).

(** No object lists a partner chain twice. *)
Definition partners_NoDup (r : Registry) : Prop :=
  ∀ l o ids, heap r !! l = Some o → obj_partnerChainIDs o = Some ids → NoDup ids.

(** [o'] is [o], possibly with ids appended to its [partnerChainIDs]. *)
Definition grown (o o' : NetObj) : Prop :=
  o' = o
  ∨ ∃ ids more, obj_partnerChainIDs o = Some ids
                ∧ o' = obj_set_partnerChainIDs (ids ++ more) o.

(** The list of partner ids after [x] has been offered to it: the source
    pushes [x] unless the list includes it. *)
Definition offered (x : Z) (ids : list Z) : list Z :=
  if bool_decide (x ∈ ids) then ids else ids ++ [x].

(** The heaps reachable from [h0] by the two writes the registration
    functions make to the heap: storing a new object at an unused address
    and appending one id to the partner list of a stored object. *)
Inductive heap_ext (h0 : gmap positive NetObj) : gmap positive NetObj → Prop :=
| ext_same : heap_ext h0 h0
| ext_alloc h o : heap_ext h0 h → heap_ext h0 (<[fresh (dom h) := o]> h)
| ext_push h lp ids x :
    heap_ext h0 h →
    h !! lp ≫= obj_partnerChainIDs = Some ids →
    heap_ext h0 (alter (obj_set_partnerChainIDs (ids ++ [x])) lp h).

(** ** More sample surroundings *)

Module Cases.

(** A custom layer-2 descriptor on top of Mainnet (chain 1). *)
Definition orbit : L2Network :=
  {| chainID := 660279; name := "Orbit"; isCustom := true; partnerChainID := 1;
     partnerChainIDs := None; ethBridge := mainnetETHBridge; confirmPeriodBlocks := 20 |}.

(** A custom layer-1 descriptor and a layer-2 descriptor on top of it. *)
Definition devL1 : L1Network :=
  {| l1_chainID := 31337; l1_name := "Dev"; l1_isCustom := true;
     l1_partnerChainIDs := []; l1_blockTime := 2 |}.

Definition devL2 : L2Network :=
  {| chainID := 31338; name := "DevRollup"; isCustom := true; partnerChainID := 31337;
     partnerChainIDs := None; ethBridge := mainnetETHBridge; confirmPeriodBlocks := 20 |}.

Definition plainL1 : L1Network :=
  {| l1_chainID := 31339; l1_name := "PlainDev"; l1_isCustom := false;
     l1_partnerChainIDs := []; l1_blockTime := 2 |}.

Definition not_custom : L2Network :=
  {| chainID := 660280; name := "Plain"; isCustom := false; partnerChainID := 1;
     partnerChainIDs := None; ethBridge := mainnetETHBridge; confirmPeriodBlocks := 20 |}.

(** A chain client that rejects the request for the current block. *)
Definition down : Provider :=
  {| provider_getNetwork := Fulfilled 42161;
     getBlockNumber := Rejected (RpcError "timeout");
     getLogs := λ _, Fulfilled [];
     latestConfirmed := λ _, Fulfilled 7;
     spent := λ _ _, Fulfilled false;
     eth_getBlockByHash := λ _, Fulfilled None;
     constructOutboxProof := λ _ _, Fulfilled [];
     getEvents := λ _, Rejected (RpcError "timeout") |}.

Definition down_world : World :=
  {| registry := initial_registry; l1Provider := down; l2Provider := down;
     executeTransaction := λ _ _, Rejected (RpcError "timeout") |}.

Definition fresh5 : L2ToL1MessageReader := new_reader "0x0B98" Sample.event5.

Definition unconfirmed : World :=
  Sample.world [Sample.log7] (Some (Sample.block "0x5e4d" 5)) false.
Definition confirmed : World :=
  Sample.world [Sample.log7] (Some (Sample.block "0x5e4d" 10)) false.
Definition executed : World :=
  Sample.world [Sample.log7] (Some (Sample.block "0x5e4d" 10)) true.

End Cases.

(** * Properties *)

(** ** The registry lookups *)

Lemma getL2Network_unfold r x :
  getL2Network r x = Normal (async (getNetwork_body r x Layer2)).
Proof. reflexivity. Qed.

Lemma entry_None r (table : gmap Z positive) id : table !! id = None → entry r table id = None.
Proof. intros H. unfold entry. by rewrite H. Qed.

Lemma await_async {A} (c : Completion A) : await (async c) = c.
Proof. by destruct c. Qed.

(** C10. The [catch] block of [getL2Network] never runs: the guarded call
    returns a promise and cannot throw, so [getL2Network] is [getNetwork] at
    layer 2.  A chain id found in neither [l2Networks] nor [chains] is
    rejected with the [Unrecognized network] error of [getNetwork], which is
    not what the fallback [getChain] would have produced, and a failure to
    obtain the chain id is passed on as it is. *)
Theorem getL2Network_never_falls_back (r : Registry) (x : SignerOrProviderOrChainID) :
  getL2Network r x = getNetwork r x Layer2
  ∧ (∀ id, resolveChainID x = Normal id →
       l2Networks r !! id = None → chains r !! id = None →
       getL2Network r x
         = Normal (Rejected (ArbSdkError ("Unrecognized network " ++ show id ++ ".")))
       ∧ getL2Network r x ≠ getChain r x)
  ∧ (∀ e, resolveChainID x = Throw e → getL2Network r x = Normal (Rejected e)).
Proof.
  split; [reflexivity|]. split.
  2:{ intros e He. rewrite getL2Network_unfold. unfold getNetwork_body.
      by rewrite await_async, He. }
  intros id Hid Hl2 Hch.
  assert (getL2Network r x
          = Normal (Rejected (ArbSdkError ("Unrecognized network " ++ show id ++ ".")))) as ->.
  { rewrite getL2Network_unfold. unfold getNetwork_body.
    rewrite await_async, Hid. simpl.
    by rewrite (entry_None _ _ _ Hl2), (entry_None _ _ _ Hch). }
  split; [reflexivity|].
  unfold getChain, getParentChainOrChain, getParentChainOrChain_body.
  rewrite !await_async, Hid. simpl.
  rewrite (entry_None _ _ _ Hch). simpl. intros H. discriminate H.
Qed.

Lemma getL2Network_never_falls_back_witness :
  getL2Network initial_registry (ChainID 7)
    = Normal (Rejected (ArbSdkError "Unrecognized network 7."))
  ∧ getL2Network initial_registry (ChainID 7) ≠ getChain initial_registry (ChainID 7).
Proof.
  apply (proj1 (proj2 (getL2Network_never_falls_back initial_registry (ChainID 7))) 7);
    vm_compute; reflexivity.
Defined.

(** ** The log search *)

Section LogSearch.

Variables (p : Provider) (fromBlock toBlock : BlockTag).
Variables (batchNumber : option Z) (destination : option string) (uniqueId : option Z).
Variable i : Z.
Variable events : list L2ToL1Event.

Hypothesis fetched :
  getEvents p {| ev_fromBlock := fromBlock; ev_toBlock := toBlock;
                 ev_destination := destination; ev_uniqueId := uniqueId;
                 ev_batchNumber := batchNumber |} = Fulfilled events.

Let search := getL2ToL1MessageLogs p fromBlock toBlock batchNumber destination uniqueId (Some i).
Local Abbreviation has_index := (λ b : L2ToL1Event, indexInBatch b = i) (only parsing).

Lemma search_unfold :
  search = if bool_decide (length (filter has_index events) = 1%nat)
           then Fulfilled (filter has_index events)
           else if bool_decide (1 < length (filter has_index events))%nat
                then Rejected (ArbTsError "More than one indexed item found in batch.")
                else Fulfilled [].
Proof.
  unfold search, getL2ToL1MessageLogs. rewrite fetched. simpl.
  repeat case_bool_decide; reflexivity.
Qed.

Lemma filter_no_match (l : list L2ToL1Event) :
  Forall (λ b, indexInBatch b ≠ i) l → filter has_index l = [].
Proof.
  induction 1 as [|b l Hb _ IH]; [reflexivity|].
  by rewrite filter_cons_False.
Qed.

(** C8. With an index supplied, the search over the fetched events rejects
    with the duplicate-item error when two of them carry that index, returns
    the single event that carries it when exactly one does, and returns the
    empty list when none does. *)
Theorem getL2ToL1MessageLogs_by_index :
  (∀ (l1 l2 l3 : list L2ToL1Event) a b, events = (l1 ++ a :: l2 ++ b :: l3)%list →
     indexInBatch a = i → indexInBatch b = i →
     search = Rejected (ArbTsError "More than one indexed item found in batch."))
  ∧ (∀ (l1 l2 : list L2ToL1Event) e, events = (l1 ++ e :: l2)%list → indexInBatch e = i →
       Forall (λ b, indexInBatch b ≠ i) (l1 ++ l2)%list → search = Fulfilled [e])
  ∧ (Forall (λ b, indexInBatch b ≠ i) events → search = Fulfilled []).
Proof.
  rewrite search_unfold. split; [|split].
  - intros l1 l2 l3 a b -> Ha Hb.
    rewrite filter_app, (filter_cons_True _ a) by exact Ha.
    rewrite filter_app, (filter_cons_True _ b) by exact Hb.
    rewrite bool_decide_false, bool_decide_true; [reflexivity| |];
      rewrite length_app; simpl; rewrite length_app; simpl; lia.
  - intros l1 l2 e -> He Hno. apply Forall_app in Hno as [H1 H2].
    rewrite filter_app, (filter_cons_True _ e) by exact He.
    rewrite (filter_no_match _ H1), (filter_no_match _ H2). reflexivity.
  - intros Hno. rewrite (filter_no_match _ Hno). reflexivity.
Qed.

End LogSearch.

Lemma getL2ToL1MessageLogs_by_index_witness :
  let evs := [Sample.event_at 1; Sample.event_at 2; Sample.event_at 1] in
  getL2ToL1MessageLogs (Sample.events_provider evs) (BlockNumber 0) (BlockName "latest")
    None None None (Some 1)
  = Rejected (ArbTsError "More than one indexed item found in batch.")
  ∧ getL2ToL1MessageLogs (Sample.events_provider evs) (BlockNumber 0) (BlockName "latest")
      None None None (Some 2)
    = Fulfilled [Sample.event_at 2]
  ∧ getL2ToL1MessageLogs (Sample.events_provider evs) (BlockNumber 0) (BlockName "latest")
      None None None (Some 3)
    = Fulfilled [].
Proof.
  intros evs. split; [|split].
  - apply (proj1 (getL2ToL1MessageLogs_by_index (Sample.events_provider evs)
                    (BlockNumber 0) (BlockName "latest") None None None 1 evs eq_refl)
             [] [Sample.event_at 2] [] (Sample.event_at 1) (Sample.event_at 1));
      reflexivity.
  - apply (proj1 (proj2 (getL2ToL1MessageLogs_by_index (Sample.events_provider evs)
                    (BlockNumber 0) (BlockName "latest") None None None 2 evs eq_refl))
             [Sample.event_at 1] [Sample.event_at 1] (Sample.event_at 2));
      [reflexivity|reflexivity|].
    repeat constructor; vm_compute; discriminate.
  - apply (proj2 (proj2 (getL2ToL1MessageLogs_by_index (Sample.events_provider evs)
                    (BlockNumber 0) (BlockName "latest") None None None 3 evs eq_refl))).
    repeat constructor; vm_compute; discriminate.
Defined.

(** ** The message tracker: resolving the confirming root *)

Lemma getL2Network_resolves r p cid o :
  provider_getNetwork p = Fulfilled cid →
  js_or (entry r (l2Networks r) cid) (entry r (chains r) cid) = Some o →
  await_call (getL2Network r (SignerOrProvider_ (ofProvider p))) = Normal o.
Proof.
  intros Hnet Htab. rewrite getL2Network_unfold. unfold await_call.
  rewrite await_async. unfold getNetwork_body. rewrite await_async.
  cbn [resolveChainID ofProvider getProviderOrThrow]. rewrite Hnet.
  cbn [await]. by rewrite Htab.
Qed.

Lemma window_length : (4 * 7 * 24 * 60 * 60) / 14 = 172800.
Proof. reflexivity. Qed.

Lemma updateSendRoot_cached w m :
  truthy (sendRootHash m) = true → updateSendRoot w m = (Normal tt, m).
Proof. intros Hm. unfold updateSendRoot, bind, get. by rewrite Hm. Qed.

Ltac resolve_with Hm Hlogs :=
  destruct Hlogs as (cid & n & node & cur & Hnet & Htab & Hlatest & Hcur & Hget);
  unfold updateSendRoot, bind, get, lift; rewrite Hm;
  rewrite (getL2Network_resolves _ _ _ _ Hnet Htab);
  cbn [ethBridge_rollup]; rewrite Hlatest, Hcur; cbn [await];
  rewrite window_length, Hget; cbn [await].

Lemma updateSendRoot_missing_logs w m logs :
  truthy (sendRootHash m) = false → confirmed_logs w logs → length logs ≠ 1%nat →
  updateSendRoot w m = (Throw (PlainError "missing logs"), m).
Proof.
  intros Hm Hlogs Hlen. resolve_with Hm Hlogs.
  destruct logs as [|? [|? ?]]; simpl in *; done.
Qed.

Lemma updateSendRoot_block w m log :
  truthy (sendRootHash m) = false → confirmed_logs w [log] →
  updateSendRoot w m =
    match await (eth_getBlockByHash (l2Provider w) (log_blockHash log)) with
    | Throw e => (Throw e, m)
    | Normal None => (Throw (TypeError "Cannot read properties of null (reading 'sendRoot')"), m)
    | Normal (Some blk) =>
        if negb (String.eqb (blk_sendRoot blk) (log_sendRoot log))
        then (Throw (PlainError "send roots"), m)
        else if position (event m) <? blk_sendCount blk
             then (Normal tt, {| outboxAddress := outboxAddress m; event := event m;
                                 sendRootHash := Some (log_sendRoot log);
                                 sendRootSize := Some (blk_sendCount blk) |})
             else (Normal tt, m)
    end.
Proof.
  intros Hm Hlogs. resolve_with Hm Hlogs.
  destruct (await _) as [[blk|]|e]; try reflexivity.
  unfold throw, put, ret. repeat case_match; reflexivity.
Qed.

(** ** The message tracker: [status], [getOutboxProof], [execute] *)

Lemma status_unfold w m :
  status w m =
    match updateSendRoot w m with
    | (Throw e, m') => (Throw e, m')
    | (Normal _, m') =>
        if negb (truthy (sendRootHash m')) then (Normal UNCONFIRMED, m')
        else match await (spent (l1Provider w) (outboxAddress m') (position (event m'))) with
             | Normal sp => (Normal (if sp : bool then EXECUTED else CONFIRMED), m')
             | Throw e => (Throw e, m')
             end
    end.
Proof.
  unfold status, bind, get, lift, ret.
  destruct (updateSendRoot w m) as [[[]|e] m']; [|reflexivity].
  destruct (negb _); [reflexivity|]. by destruct (await _).
Qed.

Lemma getOutboxProof_unfold w m :
  getOutboxProof w m =
    match updateSendRoot w m with
    | (Throw e, m') => (Throw e, m')
    | (Normal _, m') =>
        match sendRootSize m' with
        | None => (Throw (ArbTsError "Node not confirmed, cannot get proof."), m')
        | Some size =>
            match toNumber size with
            | Throw e => (Throw e, m')
            | Normal size_number =>
                match toNumber (position (event m')) with
                | Throw e => (Throw e, m')
                | Normal leaf_number =>
                    (await (constructOutboxProof (l2Provider w) size_number leaf_number), m')
                end
            end
        end
    end.
Proof.
  unfold getOutboxProof, bind, get, lift, throw.
  destruct (updateSendRoot w m) as [[[]|e] m']; [|reflexivity].
  destruct (sendRootSize m'); [|reflexivity].
  destruct (toNumber _); [|reflexivity]. by destruct (toNumber _).
Qed.

Lemma truthy_None m : sendRootHash m = None → truthy (sendRootHash m) = false.
Proof. by intros ->. Qed.

Lemma truthy_Some (h : string) : h ≠ "" → truthy (Some h) = true.
Proof.
  intros Hh. unfold truthy. destruct (String.eqb_spec h ""); [done|reflexivity].
Qed.

(** C1. On a message whose root is not memoized yet, when the resolution
    reaches the origin-chain block [blk] of the single log of the latest
    confirmed assertion and that block reports the committed root, [status]
    compares the message's position with the block's send counter: below the
    counter it answers EXECUTED if the outbox has the position as spent and
    CONFIRMED if not; at or above the counter it answers UNCONFIRMED. *)
Theorem status_compares_position_with_sendCount
    (w : World) (m : L2ToL1MessageReader) (log : NodeConfirmedLog) (blk : L2Block) :
  sendRootHash m = None →
  confirmed_logs w [log] →
  eth_getBlockByHash (l2Provider w) (log_blockHash log) = Fulfilled (Some blk) →
  blk_sendRoot blk = log_sendRoot log →
  log_sendRoot log ≠ "" →
  (position (event m) < blk_sendCount blk →
     spent (l1Provider w) (outboxAddress m) (position (event m)) = Fulfilled true →
     fst (status w m) = Normal EXECUTED)
  ∧ (position (event m) < blk_sendCount blk →
     spent (l1Provider w) (outboxAddress m) (position (event m)) = Fulfilled false →
     fst (status w m) = Normal CONFIRMED)
  ∧ (blk_sendCount blk ≤ position (event m) → status w m = (Normal UNCONFIRMED, m)).
Proof.
  intros Hm Hlogs Hblk Hroot Hne.
  assert (Hupd := updateSendRoot_block w m log (truthy_None m Hm) Hlogs).
  rewrite Hblk in Hupd. cbn [await] in Hupd.
  rewrite Hroot, String.eqb_refl in Hupd. cbn [negb] in Hupd.
  rewrite status_unfold, Hupd.
  split; [|split].
  - intros Hlt Hsp. apply Z.ltb_lt in Hlt. rewrite Hlt. cbn [sendRootHash outboxAddress event].
    by rewrite (truthy_Some _ Hne), Hsp.
  - intros Hlt Hsp. apply Z.ltb_lt in Hlt. rewrite Hlt. cbn [sendRootHash outboxAddress event].
    by rewrite (truthy_Some _ Hne), Hsp.
  - intros Hge. apply Z.ltb_ge in Hge. rewrite Hge.
    by rewrite (truthy_None m Hm).
Qed.

Lemma sample_confirmed_logs logs blk sp : confirmed_logs (Sample.world logs blk sp) logs.
Proof.
  exists 42161, net_arbOne, 7, 1000000. repeat split; reflexivity.
Qed.

Lemma status_compares_position_with_sendCount_witness :
  fst (status (Sample.world [Sample.log7] (Some (Sample.block "0x5e4d" 10)) true)
         (new_reader "0x0B98" Sample.event5)) = Normal EXECUTED
  ∧ fst (status (Sample.world [Sample.log7] (Some (Sample.block "0x5e4d" 10)) false)
           (new_reader "0x0B98" Sample.event5)) = Normal CONFIRMED
  ∧ status (Sample.world [Sample.log7] (Some (Sample.block "0x5e4d" 5)) false)
      (new_reader "0x0B98" Sample.event5)
    = (Normal UNCONFIRMED, new_reader "0x0B98" Sample.event5).
Proof.
  split; [|split].
  - refine (proj1 (status_compares_position_with_sendCount
             (Sample.world [Sample.log7] (Some (Sample.block "0x5e4d" 10)) true)
             (new_reader "0x0B98" Sample.event5) Sample.log7 (Sample.block "0x5e4d" 10)
             eq_refl (sample_confirmed_logs _ _ _) eq_refl eq_refl _) _ eq_refl);
      [discriminate | reflexivity].
  - refine (proj1 (proj2 (status_compares_position_with_sendCount
             (Sample.world [Sample.log7] (Some (Sample.block "0x5e4d" 10)) false)
             (new_reader "0x0B98" Sample.event5) Sample.log7 (Sample.block "0x5e4d" 10)
             eq_refl (sample_confirmed_logs _ _ _) eq_refl eq_refl _)) _ eq_refl);
      [discriminate | reflexivity].
  - refine (proj2 (proj2 (status_compares_position_with_sendCount
             (Sample.world [Sample.log7] (Some (Sample.block "0x5e4d" 5)) false)
             (new_reader "0x0B98" Sample.event5) Sample.log7 (Sample.block "0x5e4d" 5)
             eq_refl (sample_confirmed_logs _ _ _) eq_refl eq_refl _)) _);
      [discriminate | discriminate].
Defined.

(** C2 (as the code has it). On a message whose root is not memoized yet,
    when the resolution steps answer and the log search over the window finds
    no [NodeConfirmed] log, [status] throws [Error('missing logs')] and
    leaves the message as it was; it does not answer UNCONFIRMED. *)
Theorem status_throws_on_missing_logs (w : World) (m : L2ToL1MessageReader) :
  sendRootHash m = None →
  confirmed_logs w [] →
  status w m = (Throw (PlainError "missing logs"), m).
Proof.
  intros Hm Hlogs. rewrite status_unfold.
  by rewrite (updateSendRoot_missing_logs w m [] (truthy_None m Hm) Hlogs).
Qed.

Lemma status_throws_on_missing_logs_witness :
  status (Sample.world [] None false) (new_reader "0x0B98" Sample.event5)
  = (Throw (PlainError "missing logs"), new_reader "0x0B98" Sample.event5).
Proof.
  apply (status_throws_on_missing_logs (Sample.world [] None false)
           (new_reader "0x0B98" Sample.event5) eq_refl (sample_confirmed_logs _ _ _)).
Defined.

(** C2, refuted as stated: the search finds no log whatever the filter, and
    [status] on a fresh message throws instead of answering UNCONFIRMED. *)
Lemma status_no_log_is_not_unconfirmed :
  (∀ f, getLogs (l1Provider (Sample.world [] None false)) f = Fulfilled [])
  ∧ fst (status (Sample.world [] None false) (new_reader "0x0B98" Sample.event5))
    = Throw (PlainError "missing logs")
  ∧ fst (status (Sample.world [] None false) (new_reader "0x0B98" Sample.event5))
    ≠ Normal UNCONFIRMED.
Proof.
  split; [|split].
  - intros f. simpl. by case_bool_decide.
  - reflexivity.
  - discriminate.
Qed.

(** C4 (as the code has it). After fetching the candidate confirming block,
    [updateSendRoot] compares the block's own send root with the root of the
    assertion log; when they differ it throws [Error('send roots')] and
    memoizes nothing, and [status] and [getOutboxProof] fail with that same
    error.  The error is that fixed text. *)
Theorem updateSendRoot_rejects_root_mismatch
    (w : World) (m : L2ToL1MessageReader) (log : NodeConfirmedLog) (blk : L2Block) :
  sendRootHash m = None →
  confirmed_logs w [log] →
  eth_getBlockByHash (l2Provider w) (log_blockHash log) = Fulfilled (Some blk) →
  blk_sendRoot blk ≠ log_sendRoot log →
  updateSendRoot w m = (Throw (PlainError "send roots"), m)
  ∧ status w m = (Throw (PlainError "send roots"), m)
  ∧ getOutboxProof w m = (Throw (PlainError "send roots"), m).
Proof.
  intros Hm Hlogs Hblk Hroot.
  assert (updateSendRoot w m = (Throw (PlainError "send roots"), m)) as Hupd.
  { rewrite (updateSendRoot_block w m log (truthy_None m Hm) Hlogs), Hblk. cbn [await].
    destruct (String.eqb_spec (blk_sendRoot blk) (log_sendRoot log)); [done|reflexivity]. }
  by rewrite status_unfold, getOutboxProof_unfold, Hupd.
Qed.

Lemma updateSendRoot_rejects_root_mismatch_witness :
  let w := Sample.world [Sample.log7] (Some (Sample.block "0x0bad" 10)) false in
  let m := new_reader "0x0B98" Sample.event5 in
  updateSendRoot w m = (Throw (PlainError "send roots"), m)
  ∧ status w m = (Throw (PlainError "send roots"), m)
  ∧ getOutboxProof w m = (Throw (PlainError "send roots"), m).
Proof.
  intros w m.
  refine (updateSendRoot_rejects_root_mismatch w m Sample.log7 (Sample.block "0x0bad" 10)
            eq_refl (sample_confirmed_logs _ _ _) eq_refl _).
  discriminate.
Defined.

(** C4, refuted as stated: on chain 42161, with assertion 7 committing block
    0xb10c, the error raised on the mismatch names none of the three. *)
Lemma root_mismatch_error_has_no_context :
  let w := Sample.world [Sample.log7] (Some (Sample.block "0x0bad" 10)) false in
  ∃ e, fst (status w (new_reader "0x0B98" Sample.event5)) = Throw e
       ∧ provider_getNetwork (l2Provider w) = Fulfilled 42161
       ∧ contains (show 42161) (message e) = false
       ∧ contains (show (nodeNum Sample.log7)) (message e) = false
       ∧ contains (log_blockHash Sample.log7) (message e) = false
       ∧ contains (log_sendRoot Sample.log7) (message e) = false.
Proof.
  exists (PlainError "send roots"). repeat split; vm_compute; reflexivity.
Qed.

(** ** The memoized root over a sequence of calls *)

(** [updateSendRoot] either leaves the instance as it is or, on an instance
    whose root hash is still falsy, fills both cache fields at once. *)
Lemma await_Normal {A} (p : Promise A) (a : A) : await p = Normal a → p = Fulfilled a.
Proof. destruct p; simpl; congruence. Qed.

Lemma updateSendRoot_effect w m r m' :
  updateSendRoot w m = (r, m') →
  m' = m
  ∨ (truthy (sendRootHash m) = false ∧ r = Normal tt
     ∧ ∃ f log size,
         getLogs (l1Provider w) f = Fulfilled [log]
         ∧ position (event m) < size
         ∧ m' = {| outboxAddress := outboxAddress m; event := event m;
                   sendRootHash := Some (log_sendRoot log); sendRootSize := Some size |}).
Proof.
  unfold updateSendRoot, bind, get, lift, ret, throw, put.
  intros H. repeat case_match; simplify_eq; eauto.
  right. split; [done|]. split; [done|].
  match goal with Hl : await (getLogs _ ?f) = Normal [?l] |- _ =>
    exists f, l; apply await_Normal in Hl end.
  eexists. split; [eassumption|]. split; [|reflexivity].
  by apply Z.ltb_lt.
Qed.

Lemma updateSendRoot_fields w m :
  outboxAddress (snd (updateSendRoot w m)) = outboxAddress m
  ∧ event (snd (updateSendRoot w m)) = event m.
Proof.
  destruct (updateSendRoot w m) as [r m'] eqn:H.
  apply updateSendRoot_effect in H as [->|(_ & _ & f & log & size & _ & _ & ->)]; done.
Qed.

Lemma status_cached w m :
  truthy (sendRootHash m) = true →
  status w m =
    match await (spent (l1Provider w) (outboxAddress m) (position (event m))) with
    | Normal sp => (Normal (if sp : bool then EXECUTED else CONFIRMED), m)
    | Throw e => (Throw e, m)
    end.
Proof.
  intros Hm. rewrite status_unfold, (updateSendRoot_cached w m Hm). by rewrite Hm.
Qed.

(** An answer of CONFIRMED or EXECUTED leaves a truthy root hash behind, and
    EXECUTED is only answered when the outbox reports the position spent. *)
Lemma status_answer w m st m' :
  status w m = (Normal st, m') →
  match st with
  | NOT_FOUND => False
  | UNCONFIRMED => truthy (sendRootHash m') = false
  | CONFIRMED =>
      truthy (sendRootHash m') = true
      ∧ spent (l1Provider w) (outboxAddress m') (position (event m')) = Fulfilled false
  | EXECUTED =>
      truthy (sendRootHash m') = true
      ∧ spent (l1Provider w) (outboxAddress m') (position (event m')) = Fulfilled true
  end.
Proof.
  rewrite status_unfold.
  destruct (updateSendRoot w m) as [[[]|e] m1]; [|done].
  destruct (truthy (sendRootHash m1)) eqn:Ht; cbn [negb].
  - destruct (spent _ _ _) as [[]|e] eqn:Hsp; cbn [await]; intros; by simplify_eq.
  - intros; by simplify_eq.
Qed.

Lemma poll_cached ws m k r mk :
  truthy (sendRootHash m) = true →
  poll ws m !! k = Some (r, mk) →
  mk = m ∧ ∃ w, ws !! k = Some w ∧ status w m = (r, m).
Proof.
  intros Hm. revert k. induction ws as [|w ws IH]; intros k Hk; [done|].
  assert (snd (status w m) = m) as Hsnd.
  { rewrite (status_cached w m Hm). by destruct (await _). }
  destruct k as [|k]; simpl in Hk.
  - injection Hk as Hk. rewrite Hk in Hsnd. simpl in Hsnd. subst mk. eauto.
  - rewrite Hsnd in Hk. apply IH in Hk as (-> & w' & Hw' & Hst). eauto.
Qed.

(** C3 (as the code has it). Over any sequence of [status] calls on one
    message instance: after a call has answered CONFIRMED or EXECUTED, every
    later call leaves the instance, and so the memoized root, exactly as that
    call left it and never answers UNCONFIRMED.  Only the root is memoized,
    not the answer: a later call answers from what the outbox reports at
    that moment, EXECUTED exactly when it reports the position spent and
    CONFIRMED exactly when it reports it unspent, whatever was answered
    before. *)
Theorem status_is_monotonic
    (ws : list World) (m : L2ToL1MessageReader) (i j : nat)
    (ri rj : Completion L2ToL1MessageStatus) (mi mj : L2ToL1MessageReader) :
  (i < j)%nat →
  poll ws m !! i = Some (ri, mi) →
  poll ws m !! j = Some (rj, mj) →
  ri = Normal CONFIRMED ∨ ri = Normal EXECUTED →
  rj ≠ Normal UNCONFIRMED
  ∧ mj = mi
  ∧ ∃ wj, ws !! j = Some wj
          ∧ (rj = Normal EXECUTED
             ↔ spent (l1Provider wj) (outboxAddress mi) (position (event mi))
               = Fulfilled true)
          ∧ (rj = Normal CONFIRMED
             ↔ spent (l1Provider wj) (outboxAddress mi) (position (event mi))
               = Fulfilled false).
Proof.
  revert m i j. induction ws as [|w ws IH]; intros m i j Hij Hi Hj Hri; [done|].
  destruct j as [|j]; [lia|]. destruct i as [|i]; simpl in Hi, Hj.
  - injection Hi as Hi. rewrite Hi in Hj. simpl in Hj.
    assert (truthy (sendRootHash mi) = true) as Hcache.
    { destruct Hri as [->| ->]; apply status_answer in Hi; tauto. }
    apply (poll_cached _ _ _ _ _ Hcache) in Hj as (-> & wj & Hwj & Hst).
    rewrite (status_cached wj mi Hcache) in Hst.
    split; [|split; [done|]].
    + destruct (spent _ _ _) as [[]|e]; cbn [await] in Hst; by simplify_eq.
    + exists wj. split; [done|].
      destruct (spent _ _ _) as [[]|e]; cbn [await] in Hst; simplify_eq;
        split; split; congruence.
  - apply (IH (snd (status w m)) i j); [lia|done|done|done].
Qed.

Lemma status_is_monotonic_witness :
  let first := Sample.world [Sample.log7] (Some (Sample.block "0x5e4d" 10)) false in
  let later := Sample.world [] None true in
  let m := new_reader "0x0B98" Sample.event5 in
  let mi := snd (status first m) in
  poll [first; later] m !! 0%nat = Some (Normal CONFIRMED, mi)
  ∧ poll [first; later] m !! 1%nat = Some (Normal EXECUTED, mi)
  ∧ Normal EXECUTED ≠ Normal UNCONFIRMED
  ∧ mi = mi
  ∧ ∃ wj, [first; later] !! 1%nat = Some wj
          ∧ spent (l1Provider wj) (outboxAddress mi) (position (event mi)) = Fulfilled true.
Proof.
  intros first later m mi.
  split; [reflexivity|]. split; [reflexivity|].
  destruct (status_is_monotonic [first; later] m 0 1 (Normal CONFIRMED) (Normal EXECUTED)
              mi mi ltac:(lia) eq_refl eq_refl (or_introl eq_refl))
    as (H1 & H2 & wj & Hwj & Hex & _).
  split; [exact H1|]. split; [exact H2|].
  exists wj. split; [exact Hwj|]. exact (proj1 Hex eq_refl).
Defined.

(** C3, refuted as stated: on one fresh instance a call that sees the
    position spent answers EXECUTED, and the next call, to which the outbox
    reports the position unspent, answers CONFIRMED. *)
Lemma status_can_go_back_to_confirmed :
  fst <$> poll [Cases.executed; Cases.confirmed] Cases.fresh5
  = [Normal EXECUTED; Normal CONFIRMED].
Proof. reflexivity. Qed.

(** ** The cache invariant *)



Lemma status_state w m : snd (status w m) = snd (updateSendRoot w m).
Proof.
  rewrite status_unfold. destruct (updateSendRoot w m) as [[[]|e] m']; [|done].
  destruct (negb _); [done|]. by destruct (await _).
Qed.



Lemma toNumber_safe x : 0 ≤ x → x < 2 ^ 53 → toNumber x = Normal x.
Proof.
  intros H0 H1. unfold toNumber. rewrite Z.abs_eq by done.
  by apply Z.ltb_lt in H1 as ->.
Qed.


Lemma sample_roots_nonempty logs blk sp :
  Forall (λ log, log_sendRoot log ≠ "") logs → roots_nonempty (Sample.world logs blk sp).
Proof.
  intros Hall f logs' log Hget Hin. simpl in Hget. injection Hget as <-.
  case_bool_decide; [|by apply elem_of_nil in Hin].
  by apply (proj1 (Forall_forall _ _) Hall).
Qed.


(** ** [execute] *)

Lemma execute_unfold w m :
  execute w m =
    match status w m with
    | (Throw e, m1) => (Throw e, m1)
    | (Normal st, m1) =>
        if negb (bool_decide (st = CONFIRMED)) then (Throw (cannot_execute st), m1)
        else match getOutboxProof w m1 with
             | (Throw e, m2) => (Throw e, m2)
             | (Normal proof, m2) =>
                 (await (executeTransaction w (outboxAddress m2)
                           {| call_proof := proof;
                              call_index := position (event m2);
                              call_l2Sender := caller (event m2);
                              call_to := destination (event m2);
                              call_l2Block := arbBlockNum (event m2);
                              call_l1Block := ethBlockNum (event m2);
                              call_l2Timestamp := timestamp (event m2);
                              call_value := callvalue (event m2);
                              call_data := data (event m2) |}), m2)
             end
    end.
Proof.
  unfold execute, bind, get, lift, throw.
  destruct (status w m) as [[st|e] m1]; [|reflexivity].
  destruct (negb _); [reflexivity|].
  by destruct (getOutboxProof w m1) as [[proof|e] m2].
Qed.




(** ** Registration *)

(** C7, at a failing input.  Registering a custom layer-2 network whose
    partner chain 12345 is in no table: [addCustomNetwork] throws the
    partner-not-recognized error only after it has stored the network in
    [l2Networks], and [addCustomChain] does not throw at all and stores the
    chain together with a made-up parent entry for 12345. *)
Theorem unknown_partner_is_registered :
  let after_network := addCustomNetwork None Sample.orphan initial_registry in
  let after_chain := addCustomChain None Sample.orphan initial_registry in
  l1Networks initial_registry !! 12345 = None
  ∧ parentChains initial_registry !! 12345 = None
  ∧ l2Networks initial_registry !! 999 = None
  ∧ chains initial_registry !! 999 = None
  ∧ fst after_network
    = Throw (ArbSdkError "Network 999's partner network, 12345, not recognized")
  ∧ entry (snd after_network) (l2Networks (snd after_network)) 999
    = Some (ObjL2 Sample.orphan)
  ∧ fst after_chain = Normal tt
  ∧ entry (snd after_chain) (chains (snd after_chain)) 999 = Some (ObjL2 Sample.orphan)
  ∧ entry (snd after_chain) (parentChains (snd after_chain)) 12345
    = Some (ObjBare (Some [999])).
Proof. repeat split; vm_compute; reflexivity. Qed.

(** ** The fee-increase policy *)

(** C9, refuted as stated: going from 10% to 20% on a base of 1 leaves the
    result at 1. *)
Lemma percentIncrease_not_strict :
  10 < 20 ∧ ¬ (applyOverride 1 10 None < applyOverride 1 20 None).
Proof. split; [reflexivity|]. vm_compute. discriminate. Qed.

(** C9 (as the policy computes). The result is [base + base*percent/100]
    with the quotient truncated toward zero, floored at [min] when given.
    For a base that is not negative a larger percentage never lowers the
    result, 0% gives the base itself, a supplied [min] bounds the result from
    below, and for a base of at least 100 with percentages that are not
    negative and no [min] a larger percentage gives a larger result. *)
Theorem applyOverride_monotone (base p1 p2 : Z) (min : option Z) :
  0 ≤ base →
  p1 ≤ p2 →
  applyOverride base p1 None = base + (base * p1) ÷ 100
  ∧ applyOverride base p1 min ≤ applyOverride base p2 min
  ∧ applyOverride base 0 None = base
  ∧ (∀ floor, min = Some floor → floor ≤ applyOverride base p1 min)
  ∧ (100 ≤ base → 0 ≤ p1 → p1 < p2 →
     applyOverride base p1 None < applyOverride base p2 None).
Proof.
  intros Hbase Hp.
  assert (percentIncrease base p1 ≤ percentIncrease base p2) as Hmono.
  { unfold percentIncrease. apply Z.add_le_mono_l, Z.quot_le_mono; [lia|].
    by apply Z.mul_le_mono_nonneg_l. }
  split; [reflexivity|]. split; [|split; [|split]].
  - destruct min as [floor|]; unfold applyOverride; lia.
  - unfold applyOverride, percentIncrease. rewrite Z.mul_0_r.
    change (0 ÷ 100) with 0. lia.
  - intros floor ->. unfold applyOverride. lia.
  - intros Hbig Hp1 Hlt. unfold applyOverride, percentIncrease.
    rewrite !Z.quot_div_nonneg by nia.
    apply Z.add_lt_mono_l.
    assert ((base * p1 + 1 * 100) / 100 ≤ (base * p2) / 100) as Hstep.
    { apply Z.div_le_mono; nia. }
    rewrite Z.div_add in Hstep by lia. lia.
Qed.

Lemma applyOverride_monotone_witness :
  applyOverride 1000 10 (Some 2000) ≤ applyOverride 1000 25 (Some 2000)
  ∧ 2000 ≤ applyOverride 1000 10 (Some 2000)
  ∧ applyOverride 1000 10 None < applyOverride 1000 25 None.
Proof.
  destruct (applyOverride_monotone 1000 10 25 (Some 2000) ltac:(lia) ltac:(lia))
    as (_ & Hle & _ & Hmin & _).
  destruct (applyOverride_monotone 1000 10 25 None ltac:(lia) ltac:(lia))
    as (_ & _ & _ & _ & Hlt).
  split; [exact Hle|]. split; [exact (Hmin 2000 eq_refl)|].
  apply Hlt; lia.
Defined.

(** * Further properties *)

(** ** Registry lookups *)

Lemma fresh_loc_None (h : gmap positive NetObj) : h !! fresh (dom h) = None.
Proof. apply not_elem_of_dom, is_fresh. Qed.

Lemma fresh_loc_ne (h : gmap positive NetObj) l o : h !! l = Some o → fresh (dom h) ≠ l.
Proof. intros Hl Heq. rewrite <- Heq, fresh_loc_None in Hl. done. Qed.

Lemma bool_decide_is_Some_None {A} (o : option A) : o = None → bool_decide (is_Some o) = false.
Proof. intros ->. apply bool_decide_false. by intros [? ?]. Qed.

Lemma lookup_by_id r x id layer :
  resolveChainID x = Normal id →
  getNetwork r x layer =
    Normal (match match layer with
                  | Layer1 => entry r (l1Networks r) id
                  | Layer2 => js_or (entry r (l2Networks r) id) (entry r (chains r) id)
                  end with
            | Some n => Fulfilled n
            | None => Rejected (ArbSdkError ("Unrecognized network " ++ show id ++ "."))
            end).
Proof.
  intros Hid. unfold getNetwork, getNetwork_body. rewrite await_async, Hid.
  by destruct layer; repeat case_match.
Qed.

Lemma chain_by_id r x id type :
  resolveChainID x = Normal id →
  getParentChainOrChain r x type =
    Normal (match entry r (match type with TParentChain => parentChains r | TChain => chains r end)
                    id with
            | Some n => Fulfilled n
            | None => Rejected (ArbSdkError ("Unrecognized " ++ show_type type ++ " "
                                             ++ show id ++ "."))
            end).
Proof.
  intros Hid. unfold getParentChainOrChain, getParentChainOrChain_body.
  rewrite await_async, Hid. by case_match.
Qed.

Lemma async_await {A} (p : Promise A) : async (await p) = p.
Proof. by destruct p. Qed.

(** X1. [getL1Network] consults [l1Networks] alone: an id that is not
    there is rejected as unrecognized whatever the other three tables hold,
    and an id that is there resolves to its entry. *)
Theorem getL1Network_reads_l1Networks_only
    (r : Registry) (x : SignerOrProviderOrChainID) (id : Z) :
  resolveChainID x = Normal id →
  (l1Networks r !! id = None →
     getL1Network r x
     = Normal (Rejected (ArbSdkError ("Unrecognized network " ++ show id ++ "."))))
  ∧ (∀ o, entry r (l1Networks r) id = Some o → getL1Network r x = Normal (Fulfilled o)).
Proof.
  intros Hid. unfold getL1Network. rewrite (lookup_by_id _ _ _ _ Hid). split.
  - intros Hnone. by rewrite (entry_None _ _ _ Hnone).
  - by intros o ->.
Qed.

Lemma getL1Network_reads_l1Networks_only_witness :
  is_Some (l2Networks initial_registry !! 42161)
  ∧ getL1Network initial_registry (ChainID 42161)
    = Normal (Rejected (ArbSdkError "Unrecognized network 42161."))
  ∧ getL1Network initial_registry (ChainID 1) = Normal (Fulfilled (ObjL1 net_mainnet)).
Proof.
  split; [by eexists|]. split.
  - apply (proj1 (getL1Network_reads_l1Networks_only initial_registry (ChainID 42161) 42161
                    eq_refl)).
    reflexivity.
  - apply (proj2 (getL1Network_reads_l1Networks_only initial_registry (ChainID 1) 1 eq_refl)).
    reflexivity.
Defined.

(** X2. [getL2Network] takes the entry of [l2Networks] when there is one,
    whatever [chains] holds under that id, and otherwise the entry of
    [chains]. *)
Theorem getL2Network_prefers_l2Networks
    (r : Registry) (x : SignerOrProviderOrChainID) (id : Z) :
  resolveChainID x = Normal id →
  (∀ o, entry r (l2Networks r) id = Some o → getL2Network r x = Normal (Fulfilled o))
  ∧ (∀ o, entry r (l2Networks r) id = None → entry r (chains r) id = Some o →
       getL2Network r x = Normal (Fulfilled o)).
Proof.
  intros Hid. change (getL2Network r x) with (getNetwork r x Layer2).
  rewrite (lookup_by_id _ _ _ _ Hid). split.
  - by intros o ->.
  - by intros o -> ->.
Qed.

Lemma getL2Network_prefers_l2Networks_witness :
  let r := snd (addCustomChain None Sample.orphan initial_registry) in
  getL2Network initial_registry (ChainID 42161) = Normal (Fulfilled (ObjL2 net_arbOne))
  ∧ l2Networks r !! 999 = None
  ∧ getL2Network r (ChainID 999) = Normal (Fulfilled (ObjL2 Sample.orphan)).
Proof.
  intros r. split; [|split; [reflexivity|]].
  - apply (proj1 (getL2Network_prefers_l2Networks initial_registry (ChainID 42161) 42161
                    eq_refl)).
    reflexivity.
  - apply (proj2 (getL2Network_prefers_l2Networks r (ChainID 999) 999 eq_refl));
      vm_compute; reflexivity.
Defined.

(** X3. [getParentChain] and [getChain] read [parentChains] and [chains]:
    an id missing from the table is rejected with the error naming the kind
    that was asked for, an id in the table resolves to its entry. *)
Theorem getParentChain_getChain_by_table
    (r : Registry) (x : SignerOrProviderOrChainID) (id : Z) :
  resolveChainID x = Normal id →
  (parentChains r !! id = None →
     getParentChain r x
     = Normal (Rejected (ArbSdkError ("Unrecognized ParentChain " ++ show id ++ "."))))
  ∧ (chains r !! id = None →
     getChain r x = Normal (Rejected (ArbSdkError ("Unrecognized Chain " ++ show id ++ "."))))
  ∧ (∀ o, entry r (parentChains r) id = Some o → getParentChain r x = Normal (Fulfilled o))
  ∧ (∀ o, entry r (chains r) id = Some o → getChain r x = Normal (Fulfilled o)).
Proof.
  intros Hid. unfold getParentChain, getChain.
  rewrite !(chain_by_id _ _ _ _ Hid), !async_await. cbn [show_type].
  repeat split.
  - intros Hnone. by rewrite (entry_None _ _ _ Hnone).
  - intros Hnone. by rewrite (entry_None _ _ _ Hnone).
  - by intros o ->.
  - by intros o ->.
Qed.

Lemma getParentChain_getChain_by_table_witness :
  getParentChain initial_registry (ChainID 42161)
  = Normal (Rejected (ArbSdkError "Unrecognized ParentChain 42161."))
  ∧ getChain initial_registry (ChainID 1)
    = Normal (Rejected (ArbSdkError "Unrecognized Chain 1."))
  ∧ getParentChain initial_registry (ChainID 1) = Normal (Fulfilled (ObjL1 net_mainnet))
  ∧ getChain initial_registry (ChainID 42161) = Normal (Fulfilled (ObjL2 net_arbOne)).
Proof.
  pose proof (getParentChain_getChain_by_table initial_registry (ChainID 42161) 42161 eq_refl)
    as (Hp & _ & _ & Hc).
  pose proof (getParentChain_getChain_by_table initial_registry (ChainID 1) 1 eq_refl)
    as (_ & Hc' & Hp' & _).
  split; [apply Hp; reflexivity|]. split; [apply Hc'; reflexivity|].
  split; [apply Hp'; reflexivity|apply Hc; reflexivity].
Defined.

(** ** Registration *)

Ltac run_registry :=
  unfold addDefaultLocalNetwork, addCustomNetwork, addCustomChain, push_partner,
    bind, get, ret, throw, modify, alloc,
    set_heap, set_l1Networks, set_l2Networks, set_parentChains, set_chains;
  cbn.

Lemma offered_elem x ids : x ∈ offered x ids.
Proof. unfold offered. case_bool_decide; [done|]. apply elem_of_app. right. by left. Qed.

Lemma offered_NoDup x ids : NoDup ids → NoDup (offered x ids).
Proof.
  intros Hnd. unfold offered. case_bool_decide; [done|].
  apply NoDup_app. split; [done|]. split; [|apply NoDup_singleton].
  intros y Hy Hx. apply list_elem_of_singleton in Hx. by subst.
Qed.

Lemma obj_set_same o ids : obj_partnerChainIDs o = Some ids → obj_set_partnerChainIDs ids o = o.
Proof. destruct o as [[]|[]|]; simpl; by intros [= ->]. Qed.

Lemma pushed_lookup (h : gmap positive NetObj) lp o ids x :
  h !! lp = Some o →
  obj_partnerChainIDs o = Some ids →
  (if bool_decide (x ∈ ids) then h
   else alter (obj_set_partnerChainIDs (ids ++ [x])) lp h) !! lp
  = Some (obj_set_partnerChainIDs (offered x ids) o).
Proof.
  intros Hlp Hids. unfold offered. case_bool_decide.
  - by rewrite (obj_set_same _ _ Hids).
  - by rewrite lookup_alter_eq, Hlp.
Qed.

Lemma pushed_lookup_ne (h : gmap positive NetObj) lp l ids x :
  l ≠ lp →
  (if bool_decide (x ∈ ids) then h
   else alter (obj_set_partnerChainIDs (ids ++ [x])) lp h) !! l = h !! l.
Proof. intros Hne. case_bool_decide; [done|]. by rewrite lookup_alter_ne. Qed.

(** The registry after [addCustomNetwork] accepted a layer-2 descriptor
    whose partner was already in [l1Networks]. *)
Lemma addCustomNetwork_run r c lp o ids :
  l2Networks r !! chainID c = None →
  isCustom c = true →
  l1Networks r !! partnerChainID c = Some lp →
  heap r !! lp = Some o →
  obj_partnerChainIDs o = Some ids →
  addCustomNetwork None c r =
    (Normal tt,
     {| heap := if bool_decide (chainID c ∈ ids)
                then <[fresh (dom (heap r)) := ObjL2 c]> (heap r)
                else alter (obj_set_partnerChainIDs (ids ++ [chainID c])) lp
                       (<[fresh (dom (heap r)) := ObjL2 c]> (heap r));
        l1Networks := l1Networks r;
        l2Networks := <[chainID c := fresh (dom (heap r))]> (l2Networks r);
        parentChains := parentChains r; chains := chains r |}).
Proof.
  intros Hnew Hcustom Hp Hlp Hids.
  assert (<[fresh (dom (heap r)) := ObjL2 c]> (heap r) !! lp = Some o) as Hlp'.
  { by rewrite lookup_insert_ne by (by apply fresh_loc_ne with o). }
  run_registry.
  rewrite (bool_decide_is_Some_None _ Hnew), Hcustom. cbn.
  rewrite Hp. cbn. rewrite Hp, Hlp'. cbn. rewrite Hids.
  by case_bool_decide.
Qed.

(** X4. Without a custom L1 network, [addCustomNetwork] rejects a chain id
    that [l2Networks] already has and a descriptor whose [isCustom] flag is
    not set, each with its own error, and leaves the registry as it was. *)
Theorem addCustomNetwork_rejects (r : Registry) (c : L2Network) :
  (is_Some (l2Networks r !! chainID c) →
     addCustomNetwork None c r
     = (Throw (ArbSdkError ("Network " ++ show (chainID c) ++ " already included")), r))
  ∧ (l2Networks r !! chainID c = None → isCustom c = false →
     addCustomNetwork None c r
     = (Throw (ArbSdkError ("Custom network " ++ show (chainID c)
                            ++ " must have isCustom flag set to true")), r)).
Proof.
  split.
  - intros Hdup. run_registry. by rewrite (bool_decide_true _ Hdup).
  - intros Hnew Hcustom. run_registry.
    by rewrite (bool_decide_is_Some_None _ Hnew), Hcustom.
Qed.

Lemma addCustomNetwork_rejects_witness :
  addCustomNetwork None net_arbOne initial_registry
  = (Throw (ArbSdkError "Network 42161 already included"), initial_registry)
  ∧ addCustomNetwork None Cases.not_custom initial_registry
    = (Throw (ArbSdkError "Custom network 660280 must have isCustom flag set to true"),
       initial_registry).
Proof.
  split.
  - apply (proj1 (addCustomNetwork_rejects initial_registry net_arbOne)). by eexists.
  - apply (proj2 (addCustomNetwork_rejects initial_registry Cases.not_custom)); reflexivity.
Defined.

(** X5. [addCustomNetwork] accepts a custom layer-2 descriptor with a new
    chain id whose partner is in [l1Networks]: afterwards [getL2Network]
    resolves the id to the descriptor, and [getL1Network] resolves the
    partner to the same network as before with the new id in its
    [partnerChainIDs], appended unless it was listed already, so a list
    without repetitions stays so. *)
Theorem addCustomNetwork_registers
    (r : Registry) (c : L2Network) (lp : positive) (o : NetObj) (ids : list Z) :
  l2Networks r !! chainID c = None →
  isCustom c = true →
  l1Networks r !! partnerChainID c = Some lp →
  heap r !! lp = Some o →
  obj_partnerChainIDs o = Some ids →
  let r' := snd (addCustomNetwork None c r) in
  fst (addCustomNetwork None c r) = Normal tt
  ∧ getL2Network r' (ChainID (chainID c)) = Normal (Fulfilled (ObjL2 c))
  ∧ getL1Network r' (ChainID (partnerChainID c))
    = Normal (Fulfilled (obj_set_partnerChainIDs (offered (chainID c) ids) o))
  ∧ chainID c ∈ offered (chainID c) ids
  ∧ (NoDup ids → NoDup (offered (chainID c) ids)).
Proof.
  intros Hnew Hcustom Hp Hlp Hids.
  rewrite (addCustomNetwork_run r c lp o ids) by done. cbn [fst snd].
  assert (fresh (dom (heap r)) ≠ lp) as Hne by (by apply fresh_loc_ne with o).
  split; [done|]. split; [|split; [|split]].
  - change (getL2Network ?r ?x) with (getNetwork r x Layer2).
    rewrite (lookup_by_id _ (ChainID (chainID c)) (chainID c) _ eq_refl). unfold entry. cbn.
    rewrite lookup_insert_eq. cbn.
    rewrite pushed_lookup_ne by done. by rewrite lookup_insert_eq.
  - unfold getL1Network. rewrite (lookup_by_id _ (ChainID (partnerChainID c)) (partnerChainID c) _ eq_refl).
    unfold entry. cbn. rewrite Hp. cbn.
    rewrite (pushed_lookup _ lp o ids); [done| |done].
    by rewrite lookup_insert_ne.
  - apply offered_elem.
  - apply offered_NoDup.
Qed.

Lemma addCustomNetwork_registers_witness :
  let r' := snd (addCustomNetwork None Cases.orbit initial_registry) in
  fst (addCustomNetwork None Cases.orbit initial_registry) = Normal tt
  ∧ getL2Network r' (ChainID 660279) = Normal (Fulfilled (ObjL2 Cases.orbit))
  ∧ getL1Network r' (ChainID 1)
    = Normal (Fulfilled (obj_set_partnerChainIDs [42161; 42170; 660279] (ObjL1 net_mainnet))).
Proof.
  intros r'.
  destruct (addCustomNetwork_registers initial_registry Cases.orbit 1%positive
              (ObjL1 net_mainnet) [42161; 42170] eq_refl eq_refl eq_refl eq_refl eq_refl)
    as (H1 & H2 & H3 & _).
  split; [exact H1|]. split; [exact H2|exact H3].
Defined.

(** The registry after [addCustomNetwork] accepted a custom L1 network and a
    layer-2 descriptor on top of it in one call. *)
Lemma addCustomNetwork_run_with_partner r n1 c :
  l1Networks r !! l1_chainID n1 = None →
  l1_isCustom n1 = true →
  l2Networks r !! chainID c = None →
  isCustom c = true →
  partnerChainID c = l1_chainID n1 →
  let l1 := fresh (dom (heap r)) in
  let h1 := <[l1 := ObjL1 n1]> (heap r) in
  let l2 := fresh (dom h1) in
  let h2 := <[l2 := ObjL2 c]> h1 in
  addCustomNetwork (Some n1) c r =
    (Normal tt,
     {| heap := if bool_decide (chainID c ∈ l1_partnerChainIDs n1) then h2
                else alter (obj_set_partnerChainIDs (l1_partnerChainIDs n1 ++ [chainID c]))
                       l1 h2;
        l1Networks := <[l1_chainID n1 := l1]> (l1Networks r);
        l2Networks := <[chainID c := l2]> (l2Networks r);
        parentChains := parentChains r; chains := chains r |}).
Proof.
  intros Hnew1 Hcustom1 Hnew Hcustom Hpartner l1 h1 l2 h2.
  assert (h1 !! l1 = Some (ObjL1 n1)) as Hl1 by apply lookup_insert_eq.
  assert (h2 !! l1 = Some (ObjL1 n1)) as Hl1'.
  { unfold h2. by rewrite lookup_insert_ne by (by apply fresh_loc_ne with (ObjL1 n1)). }
  run_registry.
  rewrite (bool_decide_is_Some_None _ Hnew1), Hcustom1. cbn.
  rewrite (bool_decide_is_Some_None _ Hnew), Hcustom. cbn.
  rewrite Hpartner, lookup_insert_eq. cbn. rewrite lookup_insert_eq.
  fold l1 h1 l2 h2. rewrite Hl1'. cbn.
  by case_bool_decide.
Qed.

(** X6. [addCustomNetwork] accepts a layer-2 descriptor whose partner is
    the custom L1 network passed in the same call: both are registered, and
    the L1 network as stored lists the layer-2 chain among its partners. *)
Theorem addCustomNetwork_with_new_partner (r : Registry) (n1 : L1Network) (c : L2Network) :
  l1Networks r !! l1_chainID n1 = None →
  l1_isCustom n1 = true →
  l2Networks r !! chainID c = None →
  isCustom c = true →
  partnerChainID c = l1_chainID n1 →
  let r' := snd (addCustomNetwork (Some n1) c r) in
  fst (addCustomNetwork (Some n1) c r) = Normal tt
  ∧ getL2Network r' (ChainID (chainID c)) = Normal (Fulfilled (ObjL2 c))
  ∧ getL1Network r' (ChainID (l1_chainID n1))
    = Normal (Fulfilled (obj_set_partnerChainIDs
                           (offered (chainID c) (l1_partnerChainIDs n1)) (ObjL1 n1))).
Proof.
  intros Hnew1 Hcustom1 Hnew Hcustom Hpartner.
  rewrite (addCustomNetwork_run_with_partner r n1 c) by done. cbn [fst snd].
  set (l1 := fresh (dom (heap r))). set (h1 := <[l1 := ObjL1 n1]> (heap r)).
  set (l2 := fresh (dom h1)).
  assert (l2 ≠ l1) as Hne.
  { apply fresh_loc_ne with (ObjL1 n1). apply lookup_insert_eq. }
  split; [done|]. split.
  - change (getL2Network ?r ?x) with (getNetwork r x Layer2).
    rewrite (lookup_by_id _ (ChainID (chainID c)) (chainID c) _ eq_refl). unfold entry. cbn.
    rewrite lookup_insert_eq. cbn.
    rewrite pushed_lookup_ne by done. by rewrite lookup_insert_eq.
  - unfold getL1Network.
    rewrite (lookup_by_id _ (ChainID (l1_chainID n1)) (l1_chainID n1) _ eq_refl).
    unfold entry. cbn. rewrite lookup_insert_eq. cbn.
    rewrite (pushed_lookup _ l1 (ObjL1 n1) (l1_partnerChainIDs n1)); [done| |done].
    rewrite lookup_insert_ne by done. apply lookup_insert_eq.
Qed.

Lemma addCustomNetwork_with_new_partner_witness :
  let r' := snd (addCustomNetwork (Some Cases.devL1) Cases.devL2 initial_registry) in
  fst (addCustomNetwork (Some Cases.devL1) Cases.devL2 initial_registry) = Normal tt
  ∧ getL2Network r' (ChainID 31338) = Normal (Fulfilled (ObjL2 Cases.devL2))
  ∧ getL1Network r' (ChainID 31337)
    = Normal (Fulfilled (obj_set_partnerChainIDs [31338] (ObjL1 Cases.devL1))).
Proof.
  exact (addCustomNetwork_with_new_partner initial_registry Cases.devL1 Cases.devL2
           eq_refl eq_refl eq_refl eq_refl eq_refl).
Defined.

Lemma addCustomNetwork_tables n1 c r :
  parentChains (snd (addCustomNetwork n1 c r)) = parentChains r
  ∧ chains (snd (addCustomNetwork n1 c r)) = chains r.
Proof.
  run_registry. repeat (case_match; simplify_eq; cbn in * ); done.
Qed.

Lemma addCustomChain_tables p c r :
  l1Networks (snd (addCustomChain p c r)) = l1Networks r
  ∧ l2Networks (snd (addCustomChain p c r)) = l2Networks r.
Proof.
  run_registry. repeat (case_match; simplify_eq; cbn in * ); done.
Qed.

(** X7. The two registration functions write to different tables:
    [addCustomNetwork] never changes [parentChains] or [chains], and
    [addCustomChain] never changes [l1Networks] or [l2Networks].  So an id
    that [chains] does not have stays unknown to [getChain] after any
    [addCustomNetwork], and an id that [l1Networks] does not have stays
    unknown to [getL1Network] after any [addCustomChain]. *)
Theorem registration_tables_are_separate
    (n1 : option L1Network) (p : option ParentChain) (c : L2Network) (r : Registry) (id : Z) :
  parentChains (snd (addCustomNetwork n1 c r)) = parentChains r
  ∧ chains (snd (addCustomNetwork n1 c r)) = chains r
  ∧ l1Networks (snd (addCustomChain p c r)) = l1Networks r
  ∧ l2Networks (snd (addCustomChain p c r)) = l2Networks r
  ∧ (chains r !! id = None →
     getChain (snd (addCustomNetwork n1 c r)) (ChainID id)
     = Normal (Rejected (ArbSdkError ("Unrecognized Chain " ++ show id ++ "."))))
  ∧ (l1Networks r !! id = None →
     getL1Network (snd (addCustomChain p c r)) (ChainID id)
     = Normal (Rejected (ArbSdkError ("Unrecognized network " ++ show id ++ ".")))).
Proof.
  destruct (addCustomNetwork_tables n1 c r) as [Hpc Hch].
  destruct (addCustomChain_tables p c r) as [Hl1 Hl2].
  repeat split; try done.
  - intros Hnone. unfold getChain.
    rewrite (chain_by_id _ (ChainID id) id _ eq_refl), async_await. cbn [show_type].
    rewrite entry_None; [done|]. by rewrite Hch.
  - intros Hnone. unfold getL1Network.
    rewrite (lookup_by_id _ (ChainID id) id _ eq_refl).
    rewrite entry_None; [done|]. by rewrite Hl1.
Qed.

Lemma registration_tables_are_separate_witness :
  getL2Network (snd (addCustomNetwork None Cases.orbit initial_registry)) (ChainID 660279)
  = Normal (Fulfilled (ObjL2 Cases.orbit))
  ∧ getChain (snd (addCustomNetwork None Cases.orbit initial_registry)) (ChainID 660279)
    = Normal (Rejected (ArbSdkError "Unrecognized Chain 660279."))
  ∧ getL1Network
      (snd (addCustomChain (Some (ParentL1 Cases.devL1)) Cases.devL2 initial_registry))
      (ChainID 31337)
    = Normal (Rejected (ArbSdkError "Unrecognized network 31337.")).
Proof.
  split; [reflexivity|]. split.
  - apply (proj1 (proj2 (proj2 (proj2 (proj2
             (registration_tables_are_separate None None Cases.orbit initial_registry
                660279)))))).
    reflexivity.
  - apply (proj2 (proj2 (proj2 (proj2 (proj2
             (registration_tables_are_separate None (Some (ParentL1 Cases.devL1)) Cases.devL2
                initial_registry 31337)))))).
    reflexivity.
Defined.

(** X8. [addCustomChain] validates before it writes: it rejects a parent
    chain id that [parentChains] has, a parent without the [isCustom] flag, a
    chain id that [chains] has and a chain without the flag, each with its
    own error, and whenever it ends with one of its own errors the registry
    is exactly as before the call. *)
Theorem addCustomChain_validates_first
    (p : option ParentChain) (c : L2Network) (r : Registry) :
  (∀ msg, fst (addCustomChain p c r) = Throw (ArbSdkError msg) →
     snd (addCustomChain p c r) = r)
  ∧ (∀ q, p = Some q → is_Some (parentChains r !! parent_chainID q) →
       fst (addCustomChain p c r)
       = Throw (ArbSdkError ("Parent chain " ++ show (parent_chainID q)
                             ++ " already included.")))
  ∧ (∀ q, p = Some q → parentChains r !! parent_chainID q = None →
       parent_isCustom q = false →
       fst (addCustomChain p c r)
       = Throw (ArbSdkError ("Custom parent chain " ++ show (parent_chainID q)
                             ++ " must have isCustom flag set to true.")))
  ∧ (p = None → is_Some (chains r !! chainID c) →
       fst (addCustomChain p c r)
       = Throw (ArbSdkError ("Chain " ++ show (chainID c) ++ " already included.")))
  ∧ (p = None → chains r !! chainID c = None → isCustom c = false →
       fst (addCustomChain p c r)
       = Throw (ArbSdkError ("Custom chain " ++ show (chainID c)
                             ++ " must have isCustom flag set to true."))).
Proof.
  split; [|split; [|split; [|split]]].
  - intros msg. run_registry. repeat (case_match; simplify_eq; cbn in * ); done.
  - intros q -> Hdup. run_registry. by rewrite (bool_decide_true _ Hdup).
  - intros q -> Hnew Hcustom. run_registry.
    by rewrite (bool_decide_is_Some_None _ Hnew), Hcustom.
  - intros -> Hdup. run_registry. by rewrite (bool_decide_true _ Hdup).
  - intros -> Hnew Hcustom. run_registry.
    by rewrite (bool_decide_is_Some_None _ Hnew), Hcustom.
Qed.

Lemma addCustomChain_validates_first_witness :
  addCustomChain None net_arbOne initial_registry
  = (Throw (ArbSdkError "Chain 42161 already included."), initial_registry)
  ∧ fst (addCustomChain None Cases.not_custom initial_registry)
    = Throw (ArbSdkError "Custom chain 660280 must have isCustom flag set to true.")
  ∧ fst (addCustomChain (Some (ParentL1 net_mainnet)) Cases.orbit initial_registry)
    = Throw (ArbSdkError "Parent chain 1 already included.")
  ∧ fst (addCustomChain (Some (ParentL1 Cases.plainL1)) Cases.orbit initial_registry)
    = Throw (ArbSdkError "Custom parent chain 31339 must have isCustom flag set to true.").
Proof.
  split; [|split; [|split]].
  - pose proof (addCustomChain_validates_first None net_arbOne initial_registry)
      as (Hsame & _ & _ & Hdup & _).
    specialize (Hdup eq_refl ltac:(by eexists)).
    specialize (Hsame _ Hdup).
    rewrite (surjective_pairing (addCustomChain None net_arbOne initial_registry)).
    by rewrite Hdup, Hsame.
  - apply (proj2 (proj2 (proj2 (proj2
             (addCustomChain_validates_first None Cases.not_custom initial_registry)))));
      reflexivity.
  - apply (proj1 (proj2
             (addCustomChain_validates_first (Some (ParentL1 net_mainnet)) Cases.orbit
                initial_registry)) (ParentL1 net_mainnet) eq_refl).
    by eexists.
  - apply (proj1 (proj2 (proj2
             (addCustomChain_validates_first (Some (ParentL1 Cases.plainL1)) Cases.orbit
                initial_registry))) (ParentL1 Cases.plainL1) eq_refl); reflexivity.
Defined.

(** The registry after [addCustomChain] accepted a chain whose partner was
    already in [parentChains]. *)
Lemma addCustomChain_run r c lp o ids :
  chains r !! chainID c = None →
  isCustom c = true →
  parentChains r !! partnerChainID c = Some lp →
  heap r !! lp = Some o →
  obj_partnerChainIDs o = Some ids →
  addCustomChain None c r =
    (Normal tt,
     {| heap := if bool_decide (chainID c ∈ ids)
                then <[fresh (dom (heap r)) := ObjL2 c]> (heap r)
                else alter (obj_set_partnerChainIDs (ids ++ [chainID c])) lp
                       (<[fresh (dom (heap r)) := ObjL2 c]> (heap r));
        l1Networks := l1Networks r; l2Networks := l2Networks r;
        parentChains := parentChains r;
        chains := <[chainID c := fresh (dom (heap r))]> (chains r) |}).
Proof.
  intros Hnew Hcustom Hp Hlp Hids.
  assert (<[fresh (dom (heap r)) := ObjL2 c]> (heap r) !! lp = Some o) as Hlp'.
  { by rewrite lookup_insert_ne by (by apply fresh_loc_ne with o). }
  run_registry.
  rewrite (bool_decide_is_Some_None _ Hnew), Hcustom. cbn.
  rewrite Hp. cbn. rewrite Hp, Hlp'. cbn. rewrite Hids.
  by case_bool_decide.
Qed.

(** X9. [addCustomChain] accepts a custom chain with a new id whose partner
    is in [parentChains]: afterwards [getChain] resolves the id to the
    descriptor, so does [getL2Network] unless [l2Networks] has its own entry
    under that id, and [getParentChain] resolves the partner to the same
    chain as before with the new id among its [partnerChainIDs], appended
    unless it was listed already. *)
Theorem addCustomChain_registers
    (r : Registry) (c : L2Network) (lp : positive) (o : NetObj) (ids : list Z) :
  chains r !! chainID c = None →
  isCustom c = true →
  parentChains r !! partnerChainID c = Some lp →
  heap r !! lp = Some o →
  obj_partnerChainIDs o = Some ids →
  let r' := snd (addCustomChain None c r) in
  fst (addCustomChain None c r) = Normal tt
  ∧ getChain r' (ChainID (chainID c)) = Normal (Fulfilled (ObjL2 c))
  ∧ (l2Networks r !! chainID c = None →
     getL2Network r' (ChainID (chainID c)) = Normal (Fulfilled (ObjL2 c)))
  ∧ getParentChain r' (ChainID (partnerChainID c))
    = Normal (Fulfilled (obj_set_partnerChainIDs (offered (chainID c) ids) o))
  ∧ chainID c ∈ offered (chainID c) ids
  ∧ (NoDup ids → NoDup (offered (chainID c) ids)).
Proof.
  intros Hnew Hcustom Hp Hlp Hids.
  rewrite (addCustomChain_run r c lp o ids) by done. cbn [fst snd].
  assert (fresh (dom (heap r)) ≠ lp) as Hne by (by apply fresh_loc_ne with o).
  assert (∀ r0 : Registry,
            heap r0 = (if bool_decide (chainID c ∈ ids)
                       then <[fresh (dom (heap r)) := ObjL2 c]> (heap r)
                       else alter (obj_set_partnerChainIDs (ids ++ [chainID c])) lp
                              (<[fresh (dom (heap r)) := ObjL2 c]> (heap r))) →
            chains r0 = <[chainID c := fresh (dom (heap r))]> (chains r) →
            entry r0 (chains r0) (chainID c) = Some (ObjL2 c)) as Hentry.
  { intros r0 Hh Hc. unfold entry. rewrite Hc, lookup_insert_eq. cbn. rewrite Hh.
    rewrite pushed_lookup_ne by done. by rewrite lookup_insert_eq. }
  split; [done|]. split; [|split; [|split; [|split]]].
  - unfold getChain.
    rewrite (chain_by_id _ (ChainID (chainID c)) (chainID c) _ eq_refl), async_await.
    by rewrite Hentry.
  - intros Hl2. change (getL2Network ?r ?x) with (getNetwork r x Layer2).
    rewrite (lookup_by_id _ (ChainID (chainID c)) (chainID c) _ eq_refl).
    rewrite (entry_None _ (l2Networks _)) by done. cbn [js_or].
    by rewrite Hentry.
  - unfold getParentChain.
    rewrite (chain_by_id _ (ChainID (partnerChainID c)) (partnerChainID c) _ eq_refl),
      async_await.
    unfold entry. cbn. rewrite Hp. cbn.
    rewrite (pushed_lookup _ lp o ids); [done| |done].
    by rewrite lookup_insert_ne.
  - apply offered_elem.
  - apply offered_NoDup.
Qed.

Lemma addCustomChain_registers_witness :
  let r' := snd (addCustomChain None Cases.orbit initial_registry) in
  fst (addCustomChain None Cases.orbit initial_registry) = Normal tt
  ∧ getChain r' (ChainID 660279) = Normal (Fulfilled (ObjL2 Cases.orbit))
  ∧ getL2Network r' (ChainID 660279) = Normal (Fulfilled (ObjL2 Cases.orbit))
  ∧ getParentChain r' (ChainID 1)
    = Normal (Fulfilled (obj_set_partnerChainIDs [42161; 42170; 660279] (ObjL1 net_mainnet))).
Proof.
  intros r'.
  destruct (addCustomChain_registers initial_registry Cases.orbit 1%positive
              (ObjL1 net_mainnet) [42161; 42170] eq_refl eq_refl eq_refl eq_refl eq_refl)
    as (H1 & H2 & H3 & H4 & _).
  split; [exact H1|]. split; [exact H2|]. split; [exact (H3 eq_refl)|exact H4].
Defined.

(** The registry after [addCustomChain] accepted a parent chain and a chain
    on top of it in one call. *)
Lemma addCustomChain_run_with_parent r q c ids :
  parentChains r !! parent_chainID q = None →
  parent_isCustom q = true →
  chains r !! chainID c = None →
  isCustom c = true →
  partnerChainID c = parent_chainID q →
  obj_partnerChainIDs (parent_obj q) = Some ids →
  let l1 := fresh (dom (heap r)) in
  let h1 := <[l1 := parent_obj q]> (heap r) in
  let l2 := fresh (dom h1) in
  let h2 := <[l2 := ObjL2 c]> h1 in
  addCustomChain (Some q) c r =
    (Normal tt,
     {| heap := if bool_decide (chainID c ∈ ids) then h2
                else alter (obj_set_partnerChainIDs (ids ++ [chainID c])) l1 h2;
        l1Networks := l1Networks r; l2Networks := l2Networks r;
        parentChains := <[parent_chainID q := l1]> (parentChains r);
        chains := <[chainID c := l2]> (chains r) |}).
Proof.
  intros Hnewp Hcustomp Hnew Hcustom Hpartner Hids l1 h1 l2 h2.
  assert (h2 !! l1 = Some (parent_obj q)) as Hl1.
  { unfold h2. rewrite lookup_insert_ne; [apply lookup_insert_eq|].
    apply fresh_loc_ne with (parent_obj q). apply lookup_insert_eq. }
  run_registry.
  rewrite (bool_decide_is_Some_None _ Hnewp), Hcustomp. cbn.
  rewrite (bool_decide_is_Some_None _ Hnew), Hcustom. cbn.
  rewrite Hpartner, lookup_insert_eq. cbn. rewrite lookup_insert_eq.
  fold l1 h1 l2 h2. rewrite Hl1. cbn. rewrite Hids.
  by case_bool_decide.
Qed.

(** X10. [addCustomChain] accepts a chain whose partner is the custom
    parent chain passed in the same call: afterwards [getChain] resolves the
    chain and [getParentChain] resolves the parent, which lists the chain
    among its partners. *)
Theorem addCustomChain_with_new_parent
    (r : Registry) (q : ParentChain) (c : L2Network) (ids : list Z) :
  parentChains r !! parent_chainID q = None →
  parent_isCustom q = true →
  chains r !! chainID c = None →
  isCustom c = true →
  partnerChainID c = parent_chainID q →
  obj_partnerChainIDs (parent_obj q) = Some ids →
  let r' := snd (addCustomChain (Some q) c r) in
  fst (addCustomChain (Some q) c r) = Normal tt
  ∧ getChain r' (ChainID (chainID c)) = Normal (Fulfilled (ObjL2 c))
  ∧ getParentChain r' (ChainID (parent_chainID q))
    = Normal (Fulfilled (obj_set_partnerChainIDs (offered (chainID c) ids) (parent_obj q))).
Proof.
  intros Hnewp Hcustomp Hnew Hcustom Hpartner Hids.
  rewrite (addCustomChain_run_with_parent r q c ids) by done. cbn [fst snd].
  set (l1 := fresh (dom (heap r))). set (h1 := <[l1 := parent_obj q]> (heap r)).
  set (l2 := fresh (dom h1)).
  assert (l2 ≠ l1) as Hne.
  { apply fresh_loc_ne with (parent_obj q). apply lookup_insert_eq. }
  split; [done|]. split.
  - unfold getChain.
    rewrite (chain_by_id _ (ChainID (chainID c)) (chainID c) _ eq_refl), async_await.
    unfold entry. cbn. rewrite lookup_insert_eq. cbn.
    rewrite pushed_lookup_ne by done. by rewrite lookup_insert_eq.
  - unfold getParentChain.
    rewrite (chain_by_id _ (ChainID (parent_chainID q)) (parent_chainID q) _ eq_refl),
      async_await.
    unfold entry. cbn. rewrite lookup_insert_eq. cbn.
    rewrite (pushed_lookup _ l1 (parent_obj q) ids); [done| |done].
    rewrite lookup_insert_ne by done. apply lookup_insert_eq.
Qed.

Lemma addCustomChain_with_new_parent_witness :
  let r' := snd (addCustomChain (Some (ParentL1 Cases.devL1)) Cases.devL2 initial_registry) in
  fst (addCustomChain (Some (ParentL1 Cases.devL1)) Cases.devL2 initial_registry) = Normal tt
  ∧ getChain r' (ChainID 31338) = Normal (Fulfilled (ObjL2 Cases.devL2))
  ∧ getParentChain r' (ChainID 31337)
    = Normal (Fulfilled (obj_set_partnerChainIDs [31338] (ObjL1 Cases.devL1))).
Proof.
  exact (addCustomChain_with_new_parent initial_registry (ParentL1 Cases.devL1) Cases.devL2 []
           eq_refl eq_refl eq_refl eq_refl eq_refl eq_refl).
Defined.

Lemma not_is_Some_ne {A} (t : gmap Z A) k id l :
  bool_decide (is_Some (t !! k)) = false → t !! id = Some l → k ≠ id.
Proof.
  intros Hk Hid ->. apply bool_decide_eq_false in Hk. apply Hk. by eexists.
Qed.

Lemma negb_is_Some_ne {A} (t : gmap Z A) k id l :
  negb (bool_decide (is_Some (t !! k))) = true → t !! id = Some l → k ≠ id.
Proof. intros Hk. apply not_is_Some_ne. by apply negb_true_iff. Qed.

Ltac keep_entry :=
  repeat match goal with
  | |- <[?k := _]> _ !! ?id = Some _ =>
      rewrite lookup_insert_ne;
      [| first [ eapply not_is_Some_ne; [eassumption|]
               | eapply negb_is_Some_ne; [eassumption|] ] ]
  end; try eassumption; try done.

(** X11. Registration never replaces or removes a table entry: an id that
    one of the four tables has before a call to [addCustomNetwork] or
    [addCustomChain] refers to the same object after it, however the call
    ends. *)
Theorem registration_keeps_entries
    (n1 : option L1Network) (p : option ParentChain) (c : L2Network) (r : Registry)
    (id : Z) (l : positive) :
  (l1Networks r !! id = Some l → l1Networks (snd (addCustomNetwork n1 c r)) !! id = Some l)
  ∧ (l2Networks r !! id = Some l → l2Networks (snd (addCustomNetwork n1 c r)) !! id = Some l)
  ∧ (parentChains r !! id = Some l → parentChains (snd (addCustomChain p c r)) !! id = Some l)
  ∧ (chains r !! id = Some l → chains (snd (addCustomChain p c r)) !! id = Some l).
Proof.
  split; [|split; [|split]]; intros Hid.
  - run_registry. repeat (case_match; simplify_eq; cbn in * ); keep_entry.
  - run_registry. repeat (case_match; simplify_eq; cbn in * ); keep_entry.
  - run_registry. repeat (case_match; simplify_eq; cbn in * ); keep_entry.
  - run_registry. repeat (case_match; simplify_eq; cbn in * ); keep_entry.
Qed.

Lemma registration_keeps_entries_witness :
  l1Networks (snd (addCustomNetwork (Some Cases.devL1) Cases.devL2 initial_registry)) !! 1
  = Some 1%positive
  ∧ l2Networks (snd (addCustomNetwork None Cases.orbit initial_registry)) !! 42161
    = Some 5%positive
  ∧ parentChains (snd (addCustomChain None Sample.orphan initial_registry)) !! 1
    = Some 1%positive
  ∧ chains (snd (addCustomChain None Cases.orbit initial_registry)) !! 42161
    = Some 5%positive.
Proof.
  split; [|split; [|split]].
  - apply (proj1 (registration_keeps_entries (Some Cases.devL1) None Cases.devL2
                    initial_registry 1 1%positive)).
    reflexivity.
  - apply (proj1 (proj2 (registration_keeps_entries None None Cases.orbit
                           initial_registry 42161 5%positive))).
    reflexivity.
  - apply (proj1 (proj2 (proj2 (registration_keeps_entries None None Sample.orphan
                                  initial_registry 1 1%positive)))).
    reflexivity.
  - apply (proj2 (proj2 (proj2 (registration_keeps_entries None None Cases.orbit
                                  initial_registry 42161 5%positive)))).
    reflexivity.
Defined.

Lemma obj_set_set a b o :
  obj_set_partnerChainIDs a (obj_set_partnerChainIDs b o) = obj_set_partnerChainIDs a o.
Proof. by destruct o. Qed.

Lemma obj_set_get o ids : obj_partnerChainIDs (obj_set_partnerChainIDs ids o) = Some ids.
Proof. by destruct o. Qed.

Lemma grown_push o o' ids x :
  grown o o' → obj_partnerChainIDs o' = Some ids →
  grown o (obj_set_partnerChainIDs (ids ++ [x]) o').
Proof.
  intros [->|(ids0 & more & Hids0 & ->)] Hids.
  - right. by exists ids, [x].
  - rewrite obj_set_get in Hids. injection Hids as <-.
    right. exists ids0, (more ++ [x])%list. split; [done|].
    by rewrite obj_set_set, (assoc_L (++)).
Qed.

Lemma heap_ext_grows h0 h :
  heap_ext h0 h → ∀ l o, h0 !! l = Some o → ∃ o', h !! l = Some o' ∧ grown o o'.
Proof.
  induction 1 as [|h o1 _ IH|h lp ids x _ IH Hids]; intros l o Hl.
  - exists o. split; [done|by left].
  - destruct (IH l o Hl) as (o' & Hl' & Hg). exists o'. split; [|done].
    by rewrite lookup_insert_ne by (by apply fresh_loc_ne with o').
  - destruct (IH l o Hl) as (o' & Hl' & Hg).
    destruct (decide (lp = l)) as [->|Hne].
    + rewrite Hl' in Hids. cbn in Hids.
      exists (obj_set_partnerChainIDs (ids ++ [x]) o'). split.
      * by rewrite lookup_alter_eq, Hl'.
      * by apply grown_push.
    + exists o'. split; [|done]. by rewrite lookup_alter_ne.
Qed.

Ltac heap_steps :=
  repeat first
    [ apply ext_same
    | apply ext_alloc
    | eapply ext_push; [|eassumption] ].

Lemma addCustomNetwork_heap_ext n1 c r :
  heap_ext (heap r) (heap (snd (addCustomNetwork n1 c r))).
Proof.
  run_registry. repeat (case_match; simplify_eq; cbn in * ); heap_steps.
Qed.

Lemma addCustomChain_heap_ext p c r :
  heap_ext (heap r) (heap (snd (addCustomChain p c r))).
Proof.
  run_registry. repeat (case_match; simplify_eq; cbn in * ); heap_steps.
Qed.

(** X12. Registration never removes or rewrites a stored network object:
    after [addCustomNetwork] or [addCustomChain], however the call ends,
    every object that was stored is still at its address and is the same
    object, except that ids may have been appended to its
    [partnerChainIDs]. *)
Theorem registration_only_appends_partners
    (n1 : option L1Network) (p : option ParentChain) (c : L2Network) (r : Registry)
    (l : positive) (o : NetObj) :
  heap r !! l = Some o →
  (∃ o', heap (snd (addCustomNetwork n1 c r)) !! l = Some o' ∧ grown o o')
  ∧ (∃ o', heap (snd (addCustomChain p c r)) !! l = Some o' ∧ grown o o').
Proof.
  intros Hl. split.
  - exact (heap_ext_grows _ _ (addCustomNetwork_heap_ext n1 c r) l o Hl).
  - exact (heap_ext_grows _ _ (addCustomChain_heap_ext p c r) l o Hl).
Qed.

Lemma registration_only_appends_partners_witness :
  (∃ o', heap (snd (addCustomNetwork None Cases.orbit initial_registry)) !! 1%positive
         = Some o' ∧ grown (ObjL1 net_mainnet) o')
  ∧ (∃ o', heap (snd (addCustomChain None Cases.orbit initial_registry)) !! 1%positive
           = Some o' ∧ grown (ObjL1 net_mainnet) o').
Proof.
  exact (registration_only_appends_partners None None Cases.orbit initial_registry
           1%positive (ObjL1 net_mainnet) eq_refl).
Defined.

Lemma addDefaultLocalNetwork_run r :
  l1Networks r !! 1337 = None →
  l2Networks r !! 412346 = None →
  let l1 := fresh (dom (heap r)) in
  let h1 := <[l1 := ObjL1 defaultLocalL1Network]> (heap r) in
  let l2 := fresh (dom h1) in
  addDefaultLocalNetwork r =
    (Normal (defaultLocalL1Network, defaultLocalL2Network),
     {| heap := <[l2 := ObjL2 defaultLocalL2Network]> h1;
        l1Networks := <[1337 := l1]> (l1Networks r);
        l2Networks := <[412346 := l2]> (l2Networks r);
        parentChains := parentChains r; chains := chains r |}).
Proof.
  intros Hl1 Hl2 l1 h1 l2. unfold addDefaultLocalNetwork, bind.
  by rewrite (addCustomNetwork_run_with_partner r defaultLocalL1Network defaultLocalL2Network).
Qed.

(** X13. On a registry that has neither L1 network 1337 nor layer-2 network
    412346, [addDefaultLocalNetwork] returns the two local descriptors and
    registers them: [getL1Network] resolves 1337 and [getL2Network] resolves
    412346 to them, the L1 descriptor keeping its one partner 412346. *)
Theorem addDefaultLocalNetwork_registers (r : Registry) :
  l1Networks r !! 1337 = None →
  l2Networks r !! 412346 = None →
  let r' := snd (addDefaultLocalNetwork r) in
  fst (addDefaultLocalNetwork r) = Normal (defaultLocalL1Network, defaultLocalL2Network)
  ∧ getL1Network r' (ChainID 1337) = Normal (Fulfilled (ObjL1 defaultLocalL1Network))
  ∧ getL2Network r' (ChainID 412346) = Normal (Fulfilled (ObjL2 defaultLocalL2Network)).
Proof.
  intros Hl1 Hl2. rewrite (addDefaultLocalNetwork_run r) by done. cbn [fst snd].
  set (l1 := fresh (dom (heap r))).
  set (h1 := <[l1 := ObjL1 defaultLocalL1Network]> (heap r)).
  assert (fresh (dom h1) ≠ l1) as Hne.
  { apply fresh_loc_ne with (ObjL1 defaultLocalL1Network). apply lookup_insert_eq. }
  split; [done|]. split.
  - unfold getL1Network. rewrite (lookup_by_id _ (ChainID 1337) 1337 _ eq_refl).
    unfold entry. cbn. rewrite lookup_insert_eq. cbn.
    rewrite lookup_insert_ne by done. unfold h1. by rewrite lookup_insert_eq.
  - change (getL2Network ?r ?x) with (getNetwork r x Layer2).
    rewrite (lookup_by_id _ (ChainID 412346) 412346 _ eq_refl).
    unfold entry. cbn. rewrite lookup_insert_eq. cbn. by rewrite lookup_insert_eq.
Qed.

Lemma addDefaultLocalNetwork_registers_witness :
  let r' := snd (addDefaultLocalNetwork initial_registry) in
  fst (addDefaultLocalNetwork initial_registry)
  = Normal (defaultLocalL1Network, defaultLocalL2Network)
  ∧ getL1Network r' (ChainID 1337) = Normal (Fulfilled (ObjL1 defaultLocalL1Network))
  ∧ getL2Network r' (ChainID 412346) = Normal (Fulfilled (ObjL2 defaultLocalL2Network)).
Proof.
  exact (addDefaultLocalNetwork_registers initial_registry eq_refl eq_refl).
Defined.

(** X14. [addDefaultLocalNetwork] cannot be called twice: after a call that
    returned, the next call throws that network 1337 is already included and
    leaves the registry as the first call left it. *)
Theorem addDefaultLocalNetwork_twice
    (r r' : Registry) (nets : L1Network * L2Network) :
  addDefaultLocalNetwork r = (Normal nets, r') →
  addDefaultLocalNetwork r' = (Throw (ArbSdkError "Network 1337 already included"), r').
Proof.
  intros Hfirst.
  destruct (l1Networks r !! 1337) as [l|] eqn:Hl1.
  { exfalso. revert Hfirst. run_registry.
    rewrite Hl1, bool_decide_true by (by eexists). done. }
  destruct (l2Networks r !! 412346) as [l|] eqn:Hl2.
  { exfalso. revert Hfirst. run_registry.
    rewrite Hl1, (bool_decide_is_Some_None None) by done. cbn.
    rewrite Hl2, bool_decide_true by (by eexists). done. }
  rewrite (addDefaultLocalNetwork_run r) in Hfirst by done.
  injection Hfirst as _ <-.
  run_registry. rewrite lookup_insert_eq, bool_decide_true by (by eexists). done.
Qed.

Lemma addDefaultLocalNetwork_twice_witness :
  let r' := snd (addDefaultLocalNetwork initial_registry) in
  addDefaultLocalNetwork r' = (Throw (ArbSdkError "Network 1337 already included"), r').
Proof.
  intros r'.
  apply (addDefaultLocalNetwork_twice initial_registry r'
           (defaultLocalL1Network, defaultLocalL2Network)).
  reflexivity.
Defined.

(** ** Further properties of the message tracker *)

Lemma sendRootHash_falsy_cases m :
  truthy (sendRootHash m) = false → sendRootHash m = None ∨ sendRootHash m = Some "".
Proof.
  unfold truthy. destruct (sendRootHash m) as [h|]; [|by left].
  destruct (String.eqb_spec h ""); [subst; by right|done].
Qed.

(** X15. [status] never answers NOT_FOUND, and an UNCONFIRMED answer
    leaves the instance exactly as it was (the parsed roots being non-empty
    hex strings). *)
Theorem status_never_not_found (w : World) (m : L2ToL1MessageReader) :
  fst (status w m) ≠ Normal NOT_FOUND
  ∧ (roots_nonempty w → ∀ m', status w m = (Normal UNCONFIRMED, m') → m' = m).
Proof.
  split.
  - destruct (status w m) as [r m'] eqn:Hst. intros Hr. cbn in Hr. subst r.
    by apply status_answer in Hst.
  - intros Hw m' Hst. pose proof (status_answer _ _ _ _ Hst) as Hfalsy.
    change (truthy (sendRootHash m') = false) in Hfalsy.
    assert (m' = snd (updateSendRoot w m)) as Hm'.
    { rewrite <- status_state. by rewrite Hst. }
    destruct (updateSendRoot w m) as [r m1] eqn:Hupd. cbn in Hm'. subst m1.
    apply updateSendRoot_effect in Hupd
      as [->|(_ & _ & f & log & size & Hlogs & _ & ->)]; [done|].
    cbn [sendRootHash] in Hfalsy. rewrite truthy_Some in Hfalsy; [done|].
    apply (Hw f [log] log Hlogs). by apply list_elem_of_singleton.
Qed.

Lemma status_never_not_found_witness :
  status Cases.unconfirmed Cases.fresh5 = (Normal UNCONFIRMED, Cases.fresh5)
  ∧ snd (status Cases.unconfirmed Cases.fresh5) = Cases.fresh5.
Proof.
  split; [reflexivity|].
  apply (proj2 (status_never_not_found Cases.unconfirmed Cases.fresh5)).
  - apply sample_roots_nonempty. constructor; [discriminate|constructor].
  - reflexivity.
Defined.

Lemma getOutboxProof_state w m : snd (getOutboxProof w m) = snd (updateSendRoot w m).
Proof.
  rewrite getOutboxProof_unfold. destruct (updateSendRoot w m) as [[[]|e] m']; [|done].
  destruct (sendRootSize m'); [|done].
  destruct (toNumber _); [|done]. by destruct (toNumber _).
Qed.

Lemma execute_state w m :
  snd (execute w m) = snd (updateSendRoot w m)
  ∨ snd (execute w m) = snd (updateSendRoot w (snd (updateSendRoot w m))).
Proof.
  rewrite execute_unfold.
  destruct (status w m) as [[st|e] m1] eqn:Hst;
    (assert (m1 = snd (updateSendRoot w m)) as Hm1
       by (rewrite <- status_state; by rewrite Hst)); [|by left].
  destruct (negb _); [by left|].
  right. rewrite <- Hm1, <- getOutboxProof_state.
  by destruct (getOutboxProof w m1) as [[proof|e] m2].
Qed.

(** X16. No method replaces what identifies a message or what it has
    memoized: [status], [getOutboxProof] and [execute] leave the event and
    the outbox address as they are, and on an instance whose root is
    memoized they leave the whole instance as it is. *)
Theorem methods_keep_the_instance (w : World) (m : L2ToL1MessageReader) :
  (event (snd (status w m)) = event m ∧ outboxAddress (snd (status w m)) = outboxAddress m)
  ∧ (event (snd (getOutboxProof w m)) = event m
     ∧ outboxAddress (snd (getOutboxProof w m)) = outboxAddress m)
  ∧ (event (snd (execute w m)) = event m
     ∧ outboxAddress (snd (execute w m)) = outboxAddress m)
  ∧ (truthy (sendRootHash m) = true →
     snd (status w m) = m ∧ snd (getOutboxProof w m) = m ∧ snd (execute w m) = m).
Proof.
  destruct (updateSendRoot_fields w m) as [Ha He].
  destruct (updateSendRoot_fields w (snd (updateSendRoot w m))) as [Ha' He'].
  rewrite status_state, getOutboxProof_state.
  split; [done|]. split; [done|]. split.
  - destruct (execute_state w m) as [-> | ->]; [done|]. by rewrite Ha', He', Ha, He.
  - intros Hm. pose proof (updateSendRoot_cached w m Hm) as Hupd.
    rewrite Hupd. cbn [snd]. split; [done|]. split; [done|].
    destruct (execute_state w m) as [-> | ->]; rewrite Hupd; cbn [snd]; [done|].
    by rewrite Hupd.
Qed.

Lemma methods_keep_the_instance_witness :
  let m := snd (status Cases.confirmed Cases.fresh5) in
  snd (status Cases.down_world m) = m
  ∧ snd (getOutboxProof Cases.down_world m) = m
  ∧ snd (execute Cases.down_world m) = m.
Proof.
  intros m.
  apply (proj2 (proj2 (proj2 (methods_keep_the_instance Cases.down_world m)))).
  reflexivity.
Defined.

(** [updateSendRoot] on an instance without a memoized root, request by
    request. *)
Lemma updateSendRoot_steps w m :
  truthy (sendRootHash m) = false →
  updateSendRoot w m =
    match await_call (getL2Network (registry w) (SignerOrProvider_ (ofProvider (l2Provider w))))
    with
    | Throw e => (Throw e, m)
    | Normal l2Network =>
    match ethBridge_rollup l2Network with
    | Throw e => (Throw e, m)
    | Normal rollup_address =>
    match await (latestConfirmed (l1Provider w) rollup_address) with
    | Throw e => (Throw e, m)
    | Normal node =>
    match await (getBlockNumber (l1Provider w)) with
    | Throw e => (Throw e, m)
    | Normal cur =>
    match await (getLogs (l1Provider w)
                   {| address := rollup_address; fromBlock := Z.max (cur - 172800) 0;
                      topic_nodeNum := node |}) with
    | Throw e => (Throw e, m)
    | Normal [log] =>
        match await (eth_getBlockByHash (l2Provider w) (log_blockHash log)) with
        | Throw e => (Throw e, m)
        | Normal None =>
            (Throw (TypeError "Cannot read properties of null (reading 'sendRoot')"), m)
        | Normal (Some blk) =>
            if negb (String.eqb (blk_sendRoot blk) (log_sendRoot log))
            then (Throw (PlainError "send roots"), m)
            else if position (event m) <? blk_sendCount blk
                 then (Normal tt, {| outboxAddress := outboxAddress m; event := event m;
                                     sendRootHash := Some (log_sendRoot log);
                                     sendRootSize := Some (blk_sendCount blk) |})
                 else (Normal tt, m)
        end
    | Normal _ => (Throw (PlainError "missing logs"), m)
    end end end end end.
Proof.
  intros Hm. unfold updateSendRoot, bind, get, lift, throw, put, ret. rewrite Hm.
  rewrite window_length.
  destruct (await_call _) as [o|e]; [|done].
  destruct (ethBridge_rollup o) as [addr|e]; [|done].
  destruct (await (latestConfirmed _ _)) as [node|e]; [|done].
  destruct (await (getBlockNumber _)) as [cur|e]; [|done].
  destruct (await (getLogs _ _)) as [[|log [|log' logs]]|e]; try done.
  destruct (await (eth_getBlockByHash _ _)) as [[blk|]|e]; try done.
  by repeat case_match.
Qed.

Lemma getL2Network_of_provider r p cid :
  provider_getNetwork p = Fulfilled cid →
  await_call (getL2Network r (SignerOrProvider_ (ofProvider p))) =
    match js_or (entry r (l2Networks r) cid) (entry r (chains r) cid) with
    | Some o => Normal o
    | None => Throw (ArbSdkError ("Unrecognized network " ++ show cid ++ "."))
    end.
Proof.
  intros Hnet. rewrite getL2Network_unfold. unfold await_call.
  rewrite await_async. unfold getNetwork_body. rewrite await_async.
  cbn [resolveChainID ofProvider getProviderOrThrow]. rewrite Hnet. cbn [await].
  by case_match.
Qed.

(** X17. On an instance without a memoized root, when the chain of
    [l2Provider] is in neither [l2Networks] nor [chains], [status],
    [getOutboxProof] and [execute] all fail with the registry's
    unrecognized-network error and leave the instance as it was. *)
Theorem tracker_needs_registered_chain
    (w : World) (m : L2ToL1MessageReader) (cid : Z) :
  sendRootHash m = None →
  provider_getNetwork (l2Provider w) = Fulfilled cid →
  l2Networks (registry w) !! cid = None →
  chains (registry w) !! cid = None →
  let e := ArbSdkError ("Unrecognized network " ++ show cid ++ ".") in
  status w m = (Throw e, m) ∧ getOutboxProof w m = (Throw e, m) ∧ execute w m = (Throw e, m).
Proof.
  intros Hm Hnet Hl2 Hch e.
  assert (updateSendRoot w m = (Throw e, m)) as Hupd.
  { rewrite (updateSendRoot_steps w m (truthy_None m Hm)).
    rewrite (getL2Network_of_provider _ _ cid Hnet).
    by rewrite (entry_None _ _ _ Hl2), (entry_None _ _ _ Hch). }
  assert (status w m = (Throw e, m)) as Hst by (by rewrite status_unfold, Hupd).
  split; [done|]. split.
  - by rewrite getOutboxProof_unfold, Hupd.
  - by rewrite execute_unfold, Hst.
Qed.

Lemma tracker_needs_registered_chain_witness :
  let w := with_registry
             {| heap := heap initial_registry; l1Networks := l1Networks initial_registry;
                l2Networks := delete 42161 (l2Networks initial_registry);
                parentChains := parentChains initial_registry;
                chains := delete 42161 (chains initial_registry) |} Cases.confirmed in
  let e := ArbSdkError "Unrecognized network 42161." in
  status w Cases.fresh5 = (Throw e, Cases.fresh5)
  ∧ getOutboxProof w Cases.fresh5 = (Throw e, Cases.fresh5)
  ∧ execute w Cases.fresh5 = (Throw e, Cases.fresh5).
Proof.
  intros w e.
  exact (tracker_needs_registered_chain w Cases.fresh5 42161 eq_refl eq_refl eq_refl eq_refl).
Defined.

(** X18. The resolution wants exactly one [NodeConfirmed] log: when the
    search returns two or more, [status] throws [Error('missing logs')] just
    as when it returns none, and memoizes nothing. *)
Theorem status_rejects_several_logs
    (w : World) (m : L2ToL1MessageReader) (logs : list NodeConfirmedLog) :
  sendRootHash m = None →
  confirmed_logs w logs →
  (2 ≤ length logs)%nat →
  status w m = (Throw (PlainError "missing logs"), m).
Proof.
  intros Hm Hlogs Hlen. rewrite status_unfold.
  rewrite (updateSendRoot_missing_logs w m logs (truthy_None m Hm) Hlogs); [done|lia].
Qed.

Lemma status_rejects_several_logs_witness :
  let w := Sample.world [Sample.log7; Sample.log7] (Some (Sample.block "0x5e4d" 10)) false in
  status w Cases.fresh5 = (Throw (PlainError "missing logs"), Cases.fresh5).
Proof.
  intros w.
  apply (status_rejects_several_logs w Cases.fresh5 [Sample.log7; Sample.log7] eq_refl
           (sample_confirmed_logs _ _ _)).
  cbn. lia.
Defined.

(** X19. When the L2 client answers [null] for the block hash the
    assertion committed, [status] does not answer UNCONFIRMED: it fails with
    the [TypeError] of reading a property of [null], and memoizes nothing. *)
Theorem status_fails_on_unknown_block
    (w : World) (m : L2ToL1MessageReader) (log : NodeConfirmedLog) :
  sendRootHash m = None →
  confirmed_logs w [log] →
  eth_getBlockByHash (l2Provider w) (log_blockHash log) = Fulfilled None →
  ∃ text, status w m = (Throw (TypeError text), m).
Proof.
  intros Hm Hlogs Hblk. eexists. rewrite status_unfold.
  rewrite (updateSendRoot_block w m log (truthy_None m Hm) Hlogs), Hblk. reflexivity.
Qed.

Lemma status_fails_on_unknown_block_witness :
  ∃ text, status (Sample.world [Sample.log7] None false) Cases.fresh5
          = (Throw (TypeError text), Cases.fresh5).
Proof.
  exact (status_fails_on_unknown_block (Sample.world [Sample.log7] None false) Cases.fresh5
           Sample.log7 eq_refl (sample_confirmed_logs _ _ _) eq_refl).
Defined.

(** X20. [status] neither catches nor translates a rejected chain query.
    On an instance without a memoized root the rejection of the chain-id
    request, of [latestConfirmed], of [getBlockNumber], of [getLogs] or of
    [eth_getBlockByHash] comes out as it is and nothing is memoized; the
    rejection of [outbox.spent] comes out as it is too, after the root has
    been memoized. *)
Theorem status_passes_rejections_on
    (w : World) (m : L2ToL1MessageReader) (e : JsError) :
  sendRootHash m = None →
  (provider_getNetwork (l2Provider w) = Rejected e → status w m = (Throw e, m))
  ∧ (∀ n, await_call (getL2Network (registry w)
                        (SignerOrProvider_ (ofProvider (l2Provider w)))) = Normal (ObjL2 n) →
       (latestConfirmed (l1Provider w) (rollup (ethBridge n)) = Rejected e →
          status w m = (Throw e, m))
       ∧ (∀ node, latestConfirmed (l1Provider w) (rollup (ethBridge n)) = Fulfilled node →
            (getBlockNumber (l1Provider w) = Rejected e → status w m = (Throw e, m))
            ∧ (∀ cur, getBlockNumber (l1Provider w) = Fulfilled cur →
                 getLogs (l1Provider w)
                   {| address := rollup (ethBridge n); fromBlock := Z.max (cur - 172800) 0;
                      topic_nodeNum := node |} = Rejected e →
                 status w m = (Throw e, m))))
  ∧ (∀ log, confirmed_logs w [log] →
       (eth_getBlockByHash (l2Provider w) (log_blockHash log) = Rejected e →
          status w m = (Throw e, m))
       ∧ (∀ blk, eth_getBlockByHash (l2Provider w) (log_blockHash log) = Fulfilled (Some blk) →
            blk_sendRoot blk = log_sendRoot log →
            log_sendRoot log ≠ "" →
            position (event m) < blk_sendCount blk →
            spent (l1Provider w) (outboxAddress m) (position (event m)) = Rejected e →
            status w m
            = (Throw e, {| outboxAddress := outboxAddress m; event := event m;
                           sendRootHash := Some (log_sendRoot log);
                           sendRootSize := Some (blk_sendCount blk) |}))).
Proof.
  intros Hm. pose proof (truthy_None m Hm) as Hfalsy.
  split; [|split].
  - intros Hnet. rewrite status_unfold, (updateSendRoot_steps w m Hfalsy).
    rewrite getL2Network_unfold. unfold await_call, getNetwork_body.
    rewrite !await_async. cbn [resolveChainID ofProvider getProviderOrThrow].
    by rewrite Hnet.
  - intros n Hn. split; [|intros node Hnode; split; [|intros cur Hcur Hlogs]].
    + intros Hlatest. rewrite status_unfold, (updateSendRoot_steps w m Hfalsy), Hn.
      cbn [ethBridge_rollup]. by rewrite Hlatest.
    + intros Hcur. rewrite status_unfold, (updateSendRoot_steps w m Hfalsy), Hn.
      cbn [ethBridge_rollup]. by rewrite Hnode, Hcur.
    + rewrite status_unfold, (updateSendRoot_steps w m Hfalsy), Hn.
      cbn [ethBridge_rollup]. rewrite Hnode, Hcur. cbn [await]. by rewrite Hlogs.
  - intros log Hlogs. split.
    + intros Hblk. rewrite status_unfold.
      by rewrite (updateSendRoot_block w m log Hfalsy Hlogs), Hblk.
    + intros blk Hblk Hroot Hne Hlt Hsp. rewrite status_unfold.
      rewrite (updateSendRoot_block w m log Hfalsy Hlogs), Hblk. cbn [await].
      rewrite Hroot, String.eqb_refl. cbn [negb].
      apply Z.ltb_lt in Hlt. rewrite Hlt. cbn [sendRootHash outboxAddress event].
      by rewrite (truthy_Some _ Hne), Hsp.
Qed.

Lemma status_passes_rejections_on_witness :
  status Cases.down_world Cases.fresh5 = (Throw (RpcError "timeout"), Cases.fresh5).
Proof.
  pose proof (status_passes_rejections_on Cases.down_world Cases.fresh5 (RpcError "timeout")
                eq_refl) as (_ & H & _).
  destruct (H net_arbOne eq_refl) as [_ H'].
  destruct (H' 7 eq_refl) as [H'' _].
  exact (H'' eq_refl).
Defined.

(** X21. Once the root is memoized, [status] asks nothing but
    [outbox.spent]: in any two surroundings that give the same answer for
    the message's position at its outbox, whatever their registries, logs
    and blocks, it behaves the same. *)
Theorem status_after_memo_reads_spent_only
    (w w' : World) (m : L2ToL1MessageReader) :
  truthy (sendRootHash m) = true →
  spent (l1Provider w) (outboxAddress m) (position (event m))
  = spent (l1Provider w') (outboxAddress m) (position (event m)) →
  status w m = status w' m.
Proof.
  intros Hm Hsp. by rewrite (status_cached w m Hm), (status_cached w' m Hm), Hsp.
Qed.

Lemma status_after_memo_reads_spent_only_witness :
  let m := snd (status Cases.confirmed Cases.fresh5) in
  status Cases.down_world m = status Cases.confirmed m
  ∧ status Cases.down_world m = (Normal CONFIRMED, m).
Proof.
  intros m. split; [|reflexivity].
  exact (status_after_memo_reads_spent_only Cases.down_world Cases.confirmed m
           eq_refl eq_refl).
Defined.

(** X22. [getOutboxProof] resolves the root itself: on an instance without
    a memoized root whose position is below the send counter of the
    confirmed block it memoizes root and size and returns what the oracle
    answers for that size and position, with no [status] call before it. *)
Theorem getOutboxProof_resolves_by_itself
    (w : World) (m : L2ToL1MessageReader) (log : NodeConfirmedLog) (blk : L2Block) :
  sendRootHash m = None →
  confirmed_logs w [log] →
  eth_getBlockByHash (l2Provider w) (log_blockHash log) = Fulfilled (Some blk) →
  blk_sendRoot blk = log_sendRoot log →
  0 ≤ position (event m) < blk_sendCount blk →
  blk_sendCount blk < 2 ^ 53 →
  getOutboxProof w m
  = (await (constructOutboxProof (l2Provider w) (blk_sendCount blk) (position (event m))),
     {| outboxAddress := outboxAddress m; event := event m;
        sendRootHash := Some (log_sendRoot log);
        sendRootSize := Some (blk_sendCount blk) |}).
Proof.
  intros Hm Hlogs Hblk Hroot [Hpos Hlt] Hfit.
  rewrite getOutboxProof_unfold.
  rewrite (updateSendRoot_block w m log (truthy_None m Hm) Hlogs), Hblk. cbn [await].
  rewrite Hroot, String.eqb_refl. cbn [negb].
  pose proof Hlt as Hltb. apply Z.ltb_lt in Hltb. rewrite Hltb.
  cbn [sendRootSize event]. by rewrite !toNumber_safe by lia.
Qed.

Lemma getOutboxProof_resolves_by_itself_witness :
  fst (getOutboxProof Cases.confirmed Cases.fresh5) = Normal ["0x01"; "0x02"]
  ∧ sendRootSize (snd (getOutboxProof Cases.confirmed Cases.fresh5)) = Some 10.
Proof.
  rewrite (getOutboxProof_resolves_by_itself Cases.confirmed Cases.fresh5 Sample.log7
             (Sample.block "0x5e4d" 10) eq_refl (sample_confirmed_logs _ _ _) eq_refl eq_refl).
  - split; reflexivity.
  - cbn. lia.
  - reflexivity.
Defined.

(** X23. A memoized tree size of 2^53 or more cannot be turned into a
    JavaScript number: [getOutboxProof] fails with the numeric fault of
    [toNumber] without asking the oracle, and so does [execute] on a message
    that [status] reports as CONFIRMED. *)
Theorem getOutboxProof_overflows
    (w : World) (m : L2ToL1MessageReader) (size : Z) :
  truthy (sendRootHash m) = true →
  sendRootSize m = Some size →
  2 ^ 53 ≤ size →
  ∃ text,
    getOutboxProof w m = (Throw (NumericFault text), m)
    ∧ (spent (l1Provider w) (outboxAddress m) (position (event m)) = Fulfilled false →
       status w m = (Normal CONFIRMED, m)
       ∧ execute w m = (Throw (NumericFault text), m)).
Proof.
  intros Hm Hsize Hbig. exists "overflow".
  assert (getOutboxProof w m = (Throw (NumericFault "overflow"), m)) as Hproof.
  { rewrite getOutboxProof_unfold, (updateSendRoot_cached w m Hm), Hsize.
    unfold toNumber. rewrite Z.abs_eq by lia.
    assert ((size <? 2 ^ 53) = false) as -> by (apply Z.ltb_ge; lia). done. }
  split; [done|]. intros Hsp.
  assert (status w m = (Normal CONFIRMED, m)) as Hst.
  { by rewrite (status_cached w m Hm), Hsp. }
  split; [done|]. by rewrite execute_unfold, Hst, Hproof.
Qed.

Lemma getOutboxProof_overflows_witness :
  let w := Sample.world [Sample.log7] (Some (Sample.block "0x5e4d" (2 ^ 53))) false in
  let m := snd (status w Cases.fresh5) in
  ∃ text, getOutboxProof w m = (Throw (NumericFault text), m)
          ∧ status w m = (Normal CONFIRMED, m)
          ∧ execute w m = (Throw (NumericFault text), m).
Proof.
  intros w m.
  destruct (getOutboxProof_overflows w m (2 ^ 53) eq_refl eq_refl ltac:(lia))
    as (text & Hproof & Hrest).
  exists text. split; [exact Hproof|]. exact (Hrest eq_refl).
Defined.

(** X24. When a message is confirmed and not spent, [execute] resolves the
    root, obtains the proof and submits to the message's outbox exactly the
    oracle's proof with the event's position, caller, destination, L2 block,
    L1 block, timestamp, value and data, in that order; what it returns is
    the outcome of that submission. *)
Theorem execute_submits_proof_and_event
    (w : World) (m : L2ToL1MessageReader) (log : NodeConfirmedLog) (blk : L2Block)
    (proof : list string) :
  sendRootHash m = None →
  confirmed_logs w [log] →
  eth_getBlockByHash (l2Provider w) (log_blockHash log) = Fulfilled (Some blk) →
  blk_sendRoot blk = log_sendRoot log →
  log_sendRoot log ≠ "" →
  0 ≤ position (event m) < blk_sendCount blk →
  blk_sendCount blk < 2 ^ 53 →
  spent (l1Provider w) (outboxAddress m) (position (event m)) = Fulfilled false →
  constructOutboxProof (l2Provider w) (blk_sendCount blk) (position (event m))
  = Fulfilled proof →
  execute w m
  = (await (executeTransaction w (outboxAddress m)
              {| call_proof := proof;
                 call_index := position (event m);
                 call_l2Sender := caller (event m);
                 call_to := destination (event m);
                 call_l2Block := arbBlockNum (event m);
                 call_l1Block := ethBlockNum (event m);
                 call_l2Timestamp := timestamp (event m);
                 call_value := callvalue (event m);
                 call_data := data (event m) |}),
     {| outboxAddress := outboxAddress m; event := event m;
        sendRootHash := Some (log_sendRoot log);
        sendRootSize := Some (blk_sendCount blk) |}).
Proof.
  intros Hm Hlogs Hblk Hroot Hne [Hpos Hlt] Hfit Hsp Horacle.
  set (m' := {| outboxAddress := outboxAddress m; event := event m;
                sendRootHash := Some (log_sendRoot log);
                sendRootSize := Some (blk_sendCount blk) |}).
  assert (truthy (sendRootHash m') = true) as Hm' by (by apply truthy_Some).
  assert (status w m = (Normal CONFIRMED, m')) as Hst.
  { rewrite status_unfold.
    rewrite (updateSendRoot_block w m log (truthy_None m Hm) Hlogs), Hblk. cbn [await].
    rewrite Hroot, String.eqb_refl. cbn [negb].
    pose proof Hlt as Hltb. apply Z.ltb_lt in Hltb. rewrite Hltb. fold m'.
    rewrite Hm'. cbn [negb outboxAddress event m']. by rewrite Hsp. }
  rewrite execute_unfold, Hst. cbn [negb bool_decide decide_rel].
  rewrite bool_decide_true by done. cbn [negb].
  rewrite getOutboxProof_unfold, (updateSendRoot_cached w m' Hm').
  cbn [sendRootSize event m']. rewrite !toNumber_safe by lia.
  by rewrite Horacle.
Qed.

Lemma execute_submits_proof_and_event_witness :
  fst (execute Cases.confirmed Cases.fresh5) = Normal {| tx_hash := "0xdead" |}.
Proof.
  rewrite (execute_submits_proof_and_event Cases.confirmed Cases.fresh5 Sample.log7
             (Sample.block "0x5e4d" 10) ["0x01"; "0x02"]
             eq_refl (sample_confirmed_logs _ _ _) eq_refl eq_refl).
  - reflexivity.
  - discriminate.
  - cbn. lia.
  - reflexivity.
  - reflexivity.
  - reflexivity.
Defined.

(** X25. A message cannot be executed twice through one instance: after
    an [execute] that returned a transaction, once the outbox reports the
    position as spent every further [execute] throws the wrong-state error
    for EXECUTED, without resolving the root again and without submitting
    anything. *)
Theorem execute_again_fails
    (w w' : World) (m m' : L2ToL1MessageReader) (tx : ContractTransaction) :
  execute w m = (Normal tx, m') →
  spent (l1Provider w') (outboxAddress m') (position (event m')) = Fulfilled true →
  execute w' m' = (Throw (cannot_execute EXECUTED), m').
Proof.
  intros Hexec Hspent.
  assert (truthy (sendRootHash m') = true) as Hm'.
  { rewrite execute_unfold in Hexec.
    destruct (status w m) as [[st|e] m1] eqn:Hst; [|done].
    case_bool_decide as Hconf; [subst st|done]. cbn [negb] in Hexec.
    apply status_answer in Hst as [Hm1 _].
    assert (getOutboxProof w m1 = (fst (getOutboxProof w m1), m1)) as Hproof.
    { rewrite (surjective_pairing (getOutboxProof w m1)) at 1.
      by rewrite getOutboxProof_state, (updateSendRoot_cached w m1 Hm1). }
    rewrite Hproof in Hexec. destruct (fst (getOutboxProof w m1)); by simplify_eq. }
  rewrite execute_unfold, (status_cached w' m' Hm'), Hspent. cbn [await].
  by rewrite bool_decide_false.
Qed.

Lemma execute_again_fails_witness :
  let m' := snd (execute Cases.confirmed Cases.fresh5) in
  execute Cases.executed m'
  = (Throw (ArbTsError "Cannot execute message. Status is: 3 but must be 2."), m').
Proof.
  intros m'.
  exact (execute_again_fails Cases.confirmed Cases.executed Cases.fresh5 m'
           {| tx_hash := "0xdead" |} eq_refl eq_refl).
Defined.

(** ** Waiting *)

Lemma status_not_unconfirmed w m st m' :
  status w m = (Normal st, m') → st ≠ UNCONFIRMED →
  bool_decide (st = CONFIRMED) || bool_decide (st = EXECUTED) = true.
Proof.
  intros Hst Hne. apply status_answer in Hst. by destruct st.
Qed.

(** X26. [waitUntilReadyToExecute] ends at the first poll whose answer is
    not UNCONFIRMED: it returns if that answer is CONFIRMED or EXECUTED and
    fails with the error if [status] failed, having slept [retryDelay]
    (500 ms when none is given) once for every UNCONFIRMED poll before it. *)
Theorem wait_ends_at_first_decisive_poll
    (retryDelay : option Z) (ws : list World) (m : L2ToL1MessageReader) (k : nat)
    (r : Completion L2ToL1MessageStatus) (mk : L2ToL1MessageReader) :
  (∀ i, (i < k)%nat → ∃ mi, poll ws m !! i = Some (Normal UNCONFIRMED, mi)) →
  poll ws m !! k = Some (r, mk) →
  r ≠ Normal UNCONFIRMED →
  waitUntilReadyToExecute retryDelay ws m
  = Some {| outcome := match r with Normal _ => Normal tt | Throw e => Throw e end;
            instance := mk;
            slept := Z.of_nat k * default 500 retryDelay |}.
Proof.
  revert m k. induction ws as [|w ws IH]; intros m k Hbefore Hk Hr; [done|].
  destruct k as [|k]; cbn [poll] in Hk; cbn [waitUntilReadyToExecute].
  - injection Hk as Hk. rewrite Hk. destruct r as [st|e]; [|done].
    rewrite (status_not_unconfirmed w m st mk Hk); [done|congruence].
  - destruct (Hbefore 0%nat ltac:(lia)) as [m0 H0]. cbn [poll] in H0.
    injection H0 as H0. rewrite H0 in *. cbn [snd] in *. cbn [orb bool_decide].
    rewrite !bool_decide_false by done. cbn [orb].
    rewrite (IH m0 k); [| |done|done].
    + cbn [outcome instance slept]. do 2 f_equal. rewrite Nat2Z.inj_succ. ring.
    + intros i Hi. destruct (Hbefore (S i) ltac:(lia)) as [mi Hmi].
      cbn [poll] in Hmi. rewrite H0 in Hmi. eauto.
Qed.

Lemma wait_ends_at_first_decisive_poll_witness :
  waitUntilReadyToExecute None [Cases.unconfirmed; Cases.unconfirmed; Cases.confirmed]
    Cases.fresh5
  = Some {| outcome := Normal tt; instance := snd (status Cases.confirmed Cases.fresh5);
            slept := 1000 |}
  ∧ waitUntilReadyToExecute (Some 250) [Cases.unconfirmed; Sample.world [] None false]
      Cases.fresh5
    = Some {| outcome := Throw (PlainError "missing logs"); instance := Cases.fresh5;
              slept := 250 |}.
Proof.
  split.
  - apply (wait_ends_at_first_decisive_poll None
             [Cases.unconfirmed; Cases.unconfirmed; Cases.confirmed] Cases.fresh5 2
             (Normal CONFIRMED) (snd (status Cases.confirmed Cases.fresh5)));
      [|reflexivity|discriminate].
    intros [|[|i]] Hi; [by eexists|by eexists|lia].
  - apply (wait_ends_at_first_decisive_poll (Some 250)
             [Cases.unconfirmed; Sample.world [] None false] Cases.fresh5 1
             (Throw (PlainError "missing logs")) Cases.fresh5);
      [|reflexivity|discriminate].
    intros [|i] Hi; [by eexists|lia].
Defined.

(** X27. The wait has no bound of its own: against surroundings in which
    [status] keeps answering UNCONFIRMED it is still waiting after any
    number of polls. *)
Theorem wait_never_gives_up
    (retryDelay : option Z) (w : World) (m : L2ToL1MessageReader) (n : nat) :
  status w m = (Normal UNCONFIRMED, m) →
  waitUntilReadyToExecute retryDelay (replicate n w) m = None.
Proof.
  intros Hst. induction n as [|n IH]; [done|].
  cbn [replicate waitUntilReadyToExecute]. rewrite Hst.
  rewrite !bool_decide_false by done. cbn [orb]. by rewrite IH.
Qed.

Lemma wait_never_gives_up_witness :
  waitUntilReadyToExecute None (replicate 50 Cases.unconfirmed) Cases.fresh5 = None.
Proof.
  apply (wait_never_gives_up None Cases.unconfirmed Cases.fresh5 50). reflexivity.
Defined.

(** X28. When the wait returns, the root is memoized: the instance it
    leaves answers CONFIRMED or EXECUTED to every later [status] that
    succeeds, never UNCONFIRMED, and is not changed by it. *)
Theorem wait_returns_with_memoized_root
    (retryDelay : option Z) (ws : list World) (m : L2ToL1MessageReader) (res : Waited) :
  waitUntilReadyToExecute retryDelay ws m = Some res →
  outcome res = Normal tt →
  truthy (sendRootHash (instance res)) = true
  ∧ ∀ w', fst (status w' (instance res)) ≠ Normal UNCONFIRMED
          ∧ snd (status w' (instance res)) = instance res.
Proof.
  intros Hwait Hout.
  assert (truthy (sendRootHash (instance res)) = true) as Hm.
  { revert m res Hwait Hout. induction ws as [|w ws IH]; intros m res Hwait Hout; [done|].
    cbn [waitUntilReadyToExecute] in Hwait.
    destruct (status w m) as [[st|e] m'] eqn:Hst; [|by simplify_eq].
    destruct (bool_decide (st = CONFIRMED) || bool_decide (st = EXECUTED)) eqn:Hready.
    - simplify_eq. cbn. apply status_answer in Hst.
      destruct st; cbn in Hready; try done; tauto.
    - destruct (waitUntilReadyToExecute retryDelay ws m') as [r|] eqn:Hrec; [|done].
      simplify_eq. cbn in *. by apply (IH m' r). }
  split; [done|]. intros w'. rewrite (status_cached w' _ Hm).
  by destruct (await _) as [[]|e].
Qed.

Lemma wait_returns_with_memoized_root_witness :
  let res := {| outcome := Normal tt; instance := snd (status Cases.confirmed Cases.fresh5);
                slept := 500 |} in
  waitUntilReadyToExecute None [Cases.unconfirmed; Cases.confirmed] Cases.fresh5 = Some res
  ∧ fst (status Cases.down_world (instance res)) ≠ Normal UNCONFIRMED
  ∧ snd (status Cases.down_world (instance res)) = instance res.
Proof.
  intros res. split; [reflexivity|].
  exact (proj2 (wait_returns_with_memoized_root None [Cases.unconfirmed; Cases.confirmed]
                  Cases.fresh5 res eq_refl eq_refl) Cases.down_world).
Defined.

(** ** The log search and its window *)

(** X29. What [getL2ToL1MessageLogs] fulfils with: given an index, at most
    one event, which was among the fetched events and carries that index;
    given none, all the fetched events as they came.  A rejected fetch is
    passed on. *)
Theorem getL2ToL1MessageLogs_result
    (p : Provider) (fromBlock toBlock : BlockTag) (batchNumber : option Z)
    (destination : option string) (uniqueId : option Z) (events : list L2ToL1Event) :
  let fetch := getEvents p {| ev_fromBlock := fromBlock; ev_toBlock := toBlock;
                              ev_destination := destination; ev_uniqueId := uniqueId;
                              ev_batchNumber := batchNumber |} in
  (fetch = Fulfilled events →
     getL2ToL1MessageLogs p fromBlock toBlock batchNumber destination uniqueId None
     = Fulfilled events
     ∧ ∀ i found,
         getL2ToL1MessageLogs p fromBlock toBlock batchNumber destination uniqueId (Some i)
         = Fulfilled found →
         (length found ≤ 1)%nat
         ∧ ∀ e, e ∈ found → e ∈ events ∧ indexInBatch e = i)
  ∧ (∀ err index, fetch = Rejected err →
       getL2ToL1MessageLogs p fromBlock toBlock batchNumber destination uniqueId index
       = Rejected err).
Proof.
  intros fetch. split.
  - intros Hfetch. unfold getL2ToL1MessageLogs. fold fetch. rewrite Hfetch. cbn [await].
    split; [done|]. intros i found.
    repeat case_bool_decide; cbn [async]; intros Hfound; simplify_eq.
    + split; [lia|]. intros e He. by apply list_elem_of_filter in He as [? ?].
    + split; [cbn; lia|]. intros e He. by apply elem_of_nil in He.
  - intros err index Hfetch. unfold getL2ToL1MessageLogs. fold fetch. by rewrite Hfetch.
Qed.

Lemma getL2ToL1MessageLogs_result_witness :
  let evs := [Sample.event_at 1; Sample.event_at 2; Sample.event_at 1] in
  getL2ToL1MessageLogs (Sample.events_provider evs) (BlockNumber 0) (BlockName "latest")
    None None None None = Fulfilled evs
  ∧ ((length [Sample.event_at 2] ≤ 1)%nat
     ∧ ∀ e, e ∈ [Sample.event_at 2] → e ∈ evs ∧ indexInBatch e = 2)
  ∧ getL2ToL1MessageLogs Cases.down (BlockNumber 0) (BlockName "latest")
      None None None (Some 2) = Rejected (RpcError "timeout").
Proof.
  intros evs.
  destruct (getL2ToL1MessageLogs_result (Sample.events_provider evs) (BlockNumber 0)
              (BlockName "latest") None None None evs) as [Hok _].
  destruct (Hok eq_refl) as [Hall Hone].
  destruct (getL2ToL1MessageLogs_result Cases.down (BlockNumber 0)
              (BlockName "latest") None None None []) as [_ Hrej].
  split; [exact Hall|]. split; [exact (Hone 2 [Sample.event_at 2] eq_refl)|].
  exact (Hrej (RpcError "timeout") (Some 2) eq_refl).
Defined.

Lemma updateSendRoot_with_getLogs w m g cur :
  getBlockNumber (l1Provider w) = Fulfilled cur →
  (∀ f, fromBlock f = Z.max (cur - 172800) 0 → g f = getLogs (l1Provider w) f) →
  updateSendRoot (with_getLogs g w) m = updateSendRoot w m.
Proof.
  intros Hcur Hagree. destruct (truthy (sendRootHash m)) eqn:Hm.
  - by rewrite !updateSendRoot_cached.
  - rewrite !updateSendRoot_steps by done. cbn [with_getLogs registry l1Provider l2Provider
      latestConfirmed getBlockNumber getLogs].
    rewrite Hcur. cbn [await].
    destruct (await_call _) as [o|e]; [|done].
    destruct (ethBridge_rollup o) as [addr|e]; [|done].
    destruct (await (latestConfirmed _ _)) as [node|e]; [|done].
    by rewrite Hagree.
Qed.

(** X30. The search for the assertion log starts 172800 L1 blocks (four
    weeks of 14-second blocks) before the current block, and at block 0
    while the chain is younger than that: whatever a client would answer for
    any other starting block has no influence on [status]. *)
Theorem status_searches_one_window
    (w : World) (m : L2ToL1MessageReader)
    (g : LogFilter → Promise (list NodeConfirmedLog)) (cur : Z) :
  getBlockNumber (l1Provider w) = Fulfilled cur →
  (∀ f, fromBlock f = Z.max (cur - 172800) 0 → g f = getLogs (l1Provider w) f) →
  status (with_getLogs g w) m = status w m
  ∧ 0 ≤ Z.max (cur - 172800) 0
  ∧ (cur ≤ 172800 → Z.max (cur - 172800) 0 = 0).
Proof.
  intros Hcur Hagree. split; [|lia].
  rewrite !status_unfold, (updateSendRoot_with_getLogs w m g cur Hcur Hagree).
  reflexivity.
Qed.

Lemma status_searches_one_window_witness :
  let old_only := λ f : LogFilter,
    if bool_decide (fromBlock f = 827200)
    then getLogs (l1Provider Cases.confirmed) f
    else Fulfilled [] in
  status (with_getLogs old_only Cases.confirmed) Cases.fresh5
  = status Cases.confirmed Cases.fresh5.
Proof.
  intros old_only.
  apply (status_searches_one_window Cases.confirmed Cases.fresh5 old_only 1000000 eq_refl).
  intros f Hf. unfold old_only. rewrite bool_decide_true; [done|]. exact Hf.
Defined.

(** [getL2ParentChains] keeps exactly the entries whose object passes the
    test of [isL1Network]: by that test a layer-2 network with partner
    chains counts as an L1 network. *)
Lemma getL2ParentChains_selects (h : gmap positive NetObj) (t : gmap Z positive)
    (id : Z) (l : positive) :
  getL2ParentChains h t !! id = Some l
  ↔ t !! id = Some l ∧ ∃ o, h !! l = Some o ∧ isL1Network o = true.
Proof.
  unfold getL2ParentChains. rewrite map_lookup_filter_Some. cbn.
  unfold has_partners, isL1Network. split.
  - intros [Ht Hp]. split; [done|].
    destruct (h !! l) as [o|]; [|done]. exists o. split; [done|]. cbn in Hp.
    destruct (obj_partnerChainIDs o) as [[|? ?]|]; try done.
  - intros [Ht (o & Ho & Hp)]. split; [done|]. rewrite Ho. cbn.
    destruct (obj_partnerChainIDs o) as [[|? ?]|]; try done.
Qed.
